(** * sync_canva_design.py: a shallow embedding and its specification

    The program has three functions: [extract_design_id] (URL string to
    design identifier), [download_canva_design] (one HTTP POST and one file
    write) and [main] (credential resolution and the call sequence).  They are
    embedded below in a state-and-exception monad over an explicit [World]
    (environment variables, file system, HTTP stack and a chronological
    trace of the library calls made).

    The library functions the program calls (str methods, urllib.parse,
    posixpath, os.makedirs, open, requests.post, Response.raise_for_status)
    are modelled first, each next to the CPython or requests text it
    follows, with the exceptions they raise.  What a library decides from
    state the program does not see (permissions, a full disk, the header
    values the HTTP stack can encode, the answer of the server, the Unicode
    character database) is a parameter: a field of the world or a type
    class.  A Python [str] is represented by the Rocq [string] of its UTF-8
    bytes: every separator the program looks for is ASCII, so splitting
    commutes with the encoding. *)

From Stdlib Require Import ZArith Ascii String List.
From stdpp Require Import gmap strings list pretty.

Open Scope string_scope.

(** ** Python [str] methods *)

Module PyStr.

Definition code (c : ascii) : nat := nat_of_ascii c.

Definition in_range (lo hi : nat) (c : ascii) : bool :=
  (lo <=? code c)%nat && (code c <=? hi)%nat.

Definition isascii (c : ascii) : bool := (code c <? 128)%nat.
Definition isupper (c : ascii) : bool := in_range 65 90 c.
Definition islower (c : ascii) : bool := in_range 97 122 c.
Definition isalpha (c : ascii) : bool := isupper c || islower c.
Definition isdigit (c : ascii) : bool := in_range 48 57 c.

(** [s.find(c)]: index of the first [c]; [None] stands for -1. *)
Fixpoint find (c : ascii) (s : string) : option nat :=
  match s with
  | EmptyString => None
  | String a r => if Ascii.eqb a c then Some 0%nat else S <$> find c r
  end.

(** [c in s] *)
Definition contains (c : ascii) (s : string) : bool :=
  match find c s with Some _ => true | None => false end.

(** [s[:n]] and [s[n:]] *)
Fixpoint take (n : nat) (s : string) : string :=
  match n, s with
  | S n', String a r => String a (take n' r)
  | _, _ => EmptyString
  end.

Fixpoint drop (n : nat) (s : string) : string :=
  match n, s with
  | S n', String _ r => drop n' r
  | _, _ => s
  end.

(** [s.find(c, start)] *)
Definition find_from (c : ascii) (start : nat) (s : string) : option nat :=
  (λ i, start + i)%nat <$> find c (drop start s).

(** [s.rfind(c)] *)
Fixpoint rfind (c : ascii) (s : string) : option nat :=
  match s with
  | EmptyString => None
  | String a r =>
      match rfind c r with
      | Some i => Some (S i)
      | None => if Ascii.eqb a c then Some 0%nat else None
      end
  end.

(** [s.split(sep)] for a one-character separator: never the empty list. *)
Fixpoint split (sep : ascii) (s : string) : list string :=
  match s with
  | EmptyString => [EmptyString]
  | String a r =>
      if Ascii.eqb a sep then EmptyString :: split sep r
      else match split sep r with
           | seg :: segs => String a seg :: segs
           | [] => [String a EmptyString]
           end
  end.

(** [s.split(sep, 1)]: the text before the first [sep], and the text after
    it when there is one. *)
Definition split1 (sep : ascii) (s : string) : string * option string :=
  match find sep s with
  | Some i => (take i s, Some (drop (S i) s))
  | None => (s, None)
  end.

(** [s.replace(c, "")] *)
Fixpoint remove (c : ascii) (s : string) : string :=
  match s with
  | EmptyString => EmptyString
  | String a r => if Ascii.eqb a c then remove c r else String a (remove c r)
  end.

(** [s.replace(c, d)] for single characters *)
Fixpoint replace (c d : ascii) (s : string) : string :=
  match s with
  | EmptyString => EmptyString
  | String a r => String (if Ascii.eqb a c then d else a) (replace c d r)
  end.

(** [s.lstrip(chars)], the character set given as a predicate *)
Fixpoint lstrip (P : ascii → bool) (s : string) : string :=
  match s with
  | String a r => if P a then lstrip P r else s
  | EmptyString => EmptyString
  end.

Fixpoint forallb (P : ascii → bool) (s : string) : bool :=
  match s with
  | EmptyString => true
  | String a r => P a && forallb P r
  end.

Fixpoint map (f : ascii → ascii) (s : string) : string :=
  match s with
  | EmptyString => EmptyString
  | String a r => String (f a) (map f r)
  end.

(** [s.lower()] and [s.upper()].  On ASCII text Python changes the letters
    A-Z, respectively a-z, and nothing else.  On other text the mapping is
    that of the Unicode character database (it can change the length: the
    upper case of U+00DF is "SS"); it is taken as a parameter. *)
Class UnicodeCase := {
  unicode_upper : string → string;
  unicode_lower : string → string
}.

Definition lower_char (c : ascii) : ascii :=
  if isupper c then ascii_of_nat (code c + 32) else c.
Definition upper_char (c : ascii) : ascii :=
  if islower c then ascii_of_nat (code c - 32) else c.

Definition lower {unicode : UnicodeCase} (s : string) : string :=
  if forallb isascii s then map lower_char s else unicode_lower s.
Definition upper {unicode : UnicodeCase} (s : string) : string :=
  if forallb isascii s then map upper_char s else unicode_upper s.

(** [s.startswith(p)] and [s.endswith(p)] *)
Fixpoint startswith (p s : string) : bool :=
  match p, s with
  | EmptyString, _ => true
  | String a p', String b s' => Ascii.eqb a b && startswith p' s'
  | String _ _, EmptyString => false
  end.

Definition endswith (p s : string) : bool :=
  startswith (String.rev p) (String.rev s).

(** [''.join(parts)] *)
Definition join (parts : list string) : string :=
  fold_right String.app EmptyString parts.

End PyStr.

(** ** Python lists *)

(** [l.index(x)]: position of the first element equal to [x]; [None] where
    Python raises ValueError. *)
Fixpoint list_index (x : string) (l : list string) : option nat :=
  match l with
  | [] => None
  | y :: l' => if String.eqb y x then Some 0%nat else S <$> list_index x l'
  end.

(** ** posixpath *)

Module OsPath.

(** [os.path.join(a, b)] (posixpath.py): a component that starts with the
    separator replaces what precedes it; otherwise the separator is added
    unless the left part is empty or already ends with it. *)
Definition join (a b : string) : string :=
  if PyStr.startswith "/" b then b
  else if String.eqb a "" || PyStr.endswith "/" a then a +:+ b
  else a +:+ "/" +:+ b.

Definition is_sep (c : ascii) : bool := Ascii.eqb c "/".

(** [s.rstrip('/')] *)
Definition rstrip_sep (s : string) : string :=
  String.rev (PyStr.lstrip is_sep (String.rev s)).

(** [os.path.split(p)]: the text up to the last separator, without trailing
    separators unless it is made of separators only, and the text after it. *)
Definition split (p : string) : string * string :=
  let i := match PyStr.rfind "/" p with Some i => S i | None => 0%nat end in
  let head := PyStr.take i p in
  let tail := PyStr.drop i p in
  (if negb (String.eqb head "") && negb (PyStr.forallb is_sep head)
   then rstrip_sep head else head,
   tail).

(** [os.path.dirname(p)] *)
Definition dirname (p : string) : string := (split p).1.

End OsPath.

(** ** Exceptions and results *)

(** What [requests.post] hands back: the fields of [requests.Response] the
    program and [raise_for_status] read. *)
Record Response := {
  status_code : Z;
  reason : string;
  resp_url : string;
  content : list Byte.byte
}.

(** The classes of OSError the file system calls raise.  The program
    handles none of them; [os.makedirs] itself tells FileExistsError from
    the others. *)
Inductive OSErrorKind :=
| FileNotFoundError
| FileExistsError
| NotADirectoryError
| IsADirectoryError
| OtherOSError.

(** The exceptions that can arise in the program.  [RequestException] stands
    for [requests.exceptions.RequestException] and its subclasses: with the
    response for the HTTPError of [raise_for_status] and for
    TooManyRedirects, without one ([None]) for ConnectionError, Timeout,
    InvalidHeader and the like.  The other classes are not
    RequestExceptions: UnicodeEncodeError is what the HTTP stack raises for
    a header value outside Latin-1. *)
Inductive Exn :=
| ValueError (msg : string)
| IndexError (msg : string)
| KeyError (msg : string)
| UnicodeEncodeError (msg : string)
| OSError (kind : OSErrorKind) (msg : string)
| RequestException (msg : string) (response : option Response).

(** [str(e)] *)
Definition exn_str (e : Exn) : string :=
  match e with
  | ValueError msg | IndexError msg | KeyError msg | UnicodeEncodeError msg
  | OSError _ msg | RequestException msg _ => msg
  end.

(** [e.response], [None] also where the attribute is missing *)
Definition exn_response (e : Exn) : option Response :=
  match e with
  | RequestException _ response => response
  | _ => None
  end.

(** [isinstance(e, requests.exceptions.RequestException)] *)
Definition is_RequestException (e : Exn) : bool :=
  match e with
  | RequestException _ _ => true
  | _ => false
  end.

(** [isinstance(e, OSError)]: RequestException derives from IOError *)
Definition is_OSError (e : Exn) : bool :=
  match e with
  | OSError _ _ | RequestException _ _ => true
  | _ => false
  end.

(** [isinstance(e, Exception)] *)
Definition is_Exception (e : Exn) : bool := true.

Inductive Outcome (A : Type) :=
| Return (a : A)
| Raise (e : Exn).
Arguments Return {A} a.
Arguments Raise {A} e.

#[global] Instance Outcome_ret : MRet Outcome := λ A a, Return a.
#[global] Instance Outcome_bind : MBind Outcome := λ A B f m,
  match m with
  | Return a => f a
  | Raise e => Raise e
  end.

(** ** urllib.parse (CPython 3.12) *)

Module UrllibParse.
Import PyStr.

(** [urlsplit] validates the host part with two other libraries: a
    bracketed host goes through [ipaddress] (and the rule differs between
    CPython releases), a non-ASCII one through [unicodedata].  Both are
    taken as parameters: nothing proved below depends on what they answer. *)
Class NetlocChecks := {
  (** the validation of a netloc holding both ['['] and [']']: the message
      of the ValueError it raises, if it raises *)
  check_bracketed_netloc : string → option string;
  (** [unicodedata.normalize('NFKC', s)] *)
  nfkc : string → string
}.

Record ParseResult := {
  scheme : string;
  netloc : string;
  path : string;
  params : string;
  query : string;
  fragment : string
}.

(** [_WHATWG_C0_CONTROL_OR_SPACE]: U+0000 to U+0020 *)
Definition whatwg_c0_control_or_space (c : ascii) : bool := (code c <=? 32)%nat.

(** [_UNSAFE_URL_BYTES_TO_REMOVE = ['\t', '\r', '\n']] *)
Definition unsafe_url_bytes_to_remove : list ascii :=
  [ascii_of_nat 9; ascii_of_nat 13; ascii_of_nat 10].

(** [scheme_chars]: letters, digits and "+-." *)
Definition scheme_chars (c : ascii) : bool :=
  isalpha c || isdigit c || contains c "+-.".

Definition uses_params : list string :=
  [""; "ftp"; "hdl"; "prospero"; "http"; "imap"; "https"; "shttp"; "rtsp";
   "rtspu"; "sip"; "sips"; "mms"; "sftp"; "tel"].

(** [_splitnetloc(url, start)]: the netloc runs from [start] to the first of
    '/', '?', '#' (or to the end). *)
Definition splitnetloc (url : string) (start : nat) : string * string :=
  let delim :=
    fold_left (λ delim c,
               match find_from c start url with
               | Some wdelim => Nat.min delim wdelim
               | None => delim
               end)
              ["/"%char; "?"%char; "#"%char] (String.length url) in
  (take (delim - start) (drop start url), drop delim url).

(** [_checknetloc(netloc)]: [None] when it returns, the message when it
    raises. *)
Definition checknetloc {checks : NetlocChecks} (netloc : string) : option string :=
  if String.eqb netloc "" || forallb isascii netloc then None
  else
    let n := fold_left (λ s c, remove c s)
                       ["@"%char; ":"%char; "#"%char; "?"%char] netloc in
    let netloc2 := nfkc n in
    if String.eqb n netloc2 then None
    else if existsb (λ c, contains c netloc2)
                    ["/"%char; "?"%char; "#"%char; "@"%char; ":"%char]
         then Some ("netloc '" +:+ netloc +:+ "' contains invalid " +:+
                    "characters under NFKC normalization")
         else None.

(** The scheme prefix of [urlsplit]: [url[:i].lower()] and [url[i+1:]] when
    the text before the first ':' is one letter followed by scheme
    characters (ASCII all of them, so lowering goes letter by letter). *)
Definition split_scheme (url : string) : string * string :=
  match find ":" url, url with
  | Some (S _ as i), String c0 _ =>
      if isascii c0 && isalpha c0 && forallb scheme_chars (take i url)
      then (map lower_char (take i url), drop (S i) url)
      else ("", url)
  | _, _ => ("", url)
  end.

(** [urlsplit(url)]: scheme, netloc, path, query, fragment. *)
Definition urlsplit {checks : NetlocChecks} (url : string)
  : Outcome (string * string * string * string * string) :=
  let url := lstrip whatwg_c0_control_or_space url in
  let url := fold_left (λ u b, remove b u) unsafe_url_bytes_to_remove url in
  let '(scheme, url) := split_scheme url in
  '(netloc, url) ←
    (if startswith "//" url then
       let '(netloc, url) := splitnetloc url 2 in
       if (contains "[" netloc && negb (contains "]" netloc))
          || (contains "]" netloc && negb (contains "[" netloc))
       then Raise (ValueError "Invalid IPv6 URL")
       else if contains "[" netloc && contains "]" netloc
       then match check_bracketed_netloc netloc with
            | Some msg => Raise (ValueError msg)
            | None => Return (netloc, url)
            end
       else Return (netloc, url)
     else Return ("", url));
  let '(url, fragment) :=
    match split1 "#" url with
    | (u, Some f) => (u, f)
    | (u, None) => (u, "")
    end in
  let '(url, query) :=
    match split1 "?" url with
    | (u, Some q) => (u, q)
    | (u, None) => (u, "")
    end in
  match checknetloc netloc with
  | Some msg => Raise (ValueError msg)
  | None => Return (scheme, netloc, url, query, fragment)
  end.

(** [_splitparams(url)], called when ';' is in [url] *)
Definition splitparams (url : string) : string * string :=
  match rfind "/" url with
  | Some slash =>
      match find_from ";" slash url with
      | Some i => (take i url, drop (S i) url)
      | None => (url, "")
      end
  | None =>
      match find ";" url with
      | Some i => (take i url, drop (S i) url)
      | None => (url, "")
      end
  end.

Definition urlparse {checks : NetlocChecks} (url : string) : Outcome ParseResult :=
  '(scheme, netloc, url, query, fragment) ← urlsplit url;
  let '(url, params) :=
    if bool_decide (scheme ∈ uses_params) && contains ";" url
    then splitparams url
    else (url, "") in
  Return {| scheme := scheme; netloc := netloc; path := url;
            params := params; query := query; fragment := fragment |}.

(** *** [unquote] and [parse_qs] *)

Definition hex_value (c : ascii) : option nat :=
  if isdigit c then Some (code c - 48)%nat
  else if in_range 65 70 c then Some (code c - 55)%nat
  else if in_range 97 102 c then Some (code c - 87)%nat
  else None.

(** One item of [string.split('%')[1:]] in [_unquote_impl]: two hex digits
    become a byte, anything else keeps its '%'. *)
Definition unquote_item (item : string) : string :=
  match item with
  | String h (String l rest) =>
      match hex_value h, hex_value l with
      | Some a, Some b => String (ascii_of_nat (16 * a + b)) rest
      | _, _ => String "%" item
      end
  | _ => String "%" item
  end.

(** [_unquote_impl(string)]: percent-decoding to bytes *)
Definition unquote_impl (s : string) : string :=
  match split "%" s with
  | [] => ""
  | bit :: bits => bit +:+ join (List.map unquote_item bits)
  end.

(** U+FFFD in UTF-8 *)
Definition replacement : string :=
  String (ascii_of_nat 239) (String (ascii_of_nat 191) (String (ascii_of_nat 189) "")).

(** A lead byte of UTF-8: how many continuation bytes follow it and the
    range allowed for the first of them. *)
Definition utf8_lead (c : ascii) : option (nat * nat * nat) :=
  let n := code c in
  if in_range 194 223 c then Some (1, 128, 191)%nat
  else if (n =? 224)%nat then Some (2, 160, 191)%nat
  else if (n =? 237)%nat then Some (2, 128, 159)%nat
  else if in_range 225 239 c then Some (2, 128, 191)%nat
  else if (n =? 240)%nat then Some (3, 144, 191)%nat
  else if (n =? 244)%nat then Some (3, 128, 143)%nat
  else if in_range 241 243 c then Some (3, 128, 191)%nat
  else None.

(** [bytes.decode('utf-8', 'replace')], the result again as UTF-8: every
    well-formed sequence is kept, every maximal ill-formed prefix becomes
    U+FFFD and decoding resumes at the offending byte. *)
Fixpoint decode_replace (s : string) : string :=
  match s with
  | EmptyString => ""
  | String b0 r0 =>
      if isascii b0 then String b0 (decode_replace r0)
      else
        match utf8_lead b0 with
        | None => replacement +:+ decode_replace r0
        | Some (k, lo, hi) =>
            match r0 with
            | EmptyString => replacement
            | String b1 r1 =>
                if negb (in_range lo hi b1) then replacement +:+ decode_replace r0
                else if (k =? 1)%nat then String b0 (String b1 (decode_replace r1))
                else
                  match r1 with
                  | EmptyString => replacement
                  | String b2 r2 =>
                      if negb (in_range 128 191 b2)
                      then replacement +:+ decode_replace r1
                      else if (k =? 2)%nat
                      then String b0 (String b1 (String b2 (decode_replace r2)))
                      else
                        match r2 with
                        | EmptyString => replacement
                        | String b3 r3 =>
                            if negb (in_range 128 191 b3)
                            then replacement +:+ decode_replace r2
                            else String b0 (String b1 (String b2 (String b3
                                   (decode_replace r3))))
                        end
                  end
            end
        end
  end.

(** [_generate_unquoted_parts]: each maximal run of ASCII characters is
    percent-decoded and UTF-8-decoded on its own; the characters between
    the runs pass through.  [run] is the ASCII run read so far. *)
Fixpoint unquoted_parts (run s : string) : string :=
  match s with
  | EmptyString => decode_replace (unquote_impl run)
  | String c r =>
      if isascii c then unquoted_parts (run +:+ String c "") r
      else decode_replace (unquote_impl run) +:+ String c (unquoted_parts "" r)
  end.

(** [unquote(string)] with the defaults [encoding='utf-8'],
    [errors='replace'] *)
Definition unquote (s : string) : string :=
  if negb (contains "%" s) then s else unquoted_parts "" s.

(** [parse_qsl(qs)] with the defaults: [keep_blank_values=False],
    [strict_parsing=False], [separator='&'].  A field without '=' or with
    an empty value is skipped. *)
Definition parse_field (name_value : string) : option (string * string) :=
  match split1 "=" name_value with
  | (name, Some value) =>
      if (0 <? String.length value)%nat
      then Some (unquote (replace "+" " " name), unquote (replace "+" " " value))
      else None
  | (_, None) => None
  end.

Definition parse_qsl (qs : string) : list (string * string) :=
  omap parse_field (split "&" qs).

(** [parse_qs(qs)]: the values of each name, in order of appearance. *)
Definition parse_qs (qs : string) : gmap string (list string) :=
  fold_left (λ (parsed_result : gmap string (list string)) '(name, value),
             match parsed_result !! name with
             | Some values => <[name := (values ++ [value])%list]> parsed_result
             | None => <[name := [value]]> parsed_result
             end)
            (parse_qsl qs) ∅.

End UrllibParse.

(** ** The world the program runs in *)

Inductive Level := INFO | ERROR.

(** A call of [requests.post(url, json=..., headers=...)]. *)
Record Request := {
  req_method : string;
  req_url : string;
  req_json : list (string * string);
  req_headers : list (string * string)
}.

(** What a call of [requests.post] ends with, once the library has accepted
    its arguments: a response (of any status), or a RequestException with
    its message and, for the classes that carry one, the last response. *)
Inductive HttpOutcome :=
| Responds (r : Response)
| Fails (msg : string) (response : option Response).

(** The library calls of the program, in the order they are made: each event
    is a call, recorded when it is entered, whatever becomes of it. *)
Inductive Event :=
| EvLog (level : Level) (msg : string)
| EvMakedirs (name : string)
| EvRequest (r : Request)
| EvOpen (path : string) (mode : string)
| EvWrite (path : string) (data : list Byte.byte).

(** The world outside the program.
    - The file system: the names known to denote directories, the regular
      files with their contents (by path name as written: '.', '..' and
      links are not resolved, the root and the current directory are always
      there), the names at which it refuses to create or open anything
      (permissions, a read-only disk, ...), the writes it cuts short (a full
      disk, ...) with the number of bytes that reach the file, and the
      message of each OSError.
    - The HTTP stack: the exception [requests.post] raises on account of the
      call itself (InvalidHeader, a RequestException, for a header value with
      a line break; UnicodeEncodeError, which is none, for one outside
      Latin-1), and the outcomes of the calls it accepts, in order.  What the
      library puts on the wire for an accepted call (redirects it follows,
      credentials it takes from netrc) is not modelled. *)
Record World := {
  environ : gmap string string;
  fs_dirs : gset string;
  fs_files : gmap string (list Byte.byte);
  fs_refuses : string → bool;
  fs_strerror : OSErrorKind → string → string;
  fs_short_write : string → list Byte.byte → option nat;
  net_refuses : Request → option Exn;
  net_script : list HttpOutcome;
  trace : list Event
}.

Definition emit (e : Event) (w : World) : World :=
  {| environ := environ w; fs_dirs := fs_dirs w; fs_files := fs_files w;
     fs_refuses := fs_refuses w; fs_strerror := fs_strerror w;
     fs_short_write := fs_short_write w;
     net_refuses := net_refuses w; net_script := net_script w;
     trace := trace w ++ [e] |}.

Definition set_dirs (d : gset string) (w : World) : World :=
  {| environ := environ w; fs_dirs := d; fs_files := fs_files w;
     fs_refuses := fs_refuses w; fs_strerror := fs_strerror w;
     fs_short_write := fs_short_write w;
     net_refuses := net_refuses w; net_script := net_script w;
     trace := trace w |}.

Definition set_files (f : gmap string (list Byte.byte)) (w : World) : World :=
  {| environ := environ w; fs_dirs := fs_dirs w; fs_files := f;
     fs_refuses := fs_refuses w; fs_strerror := fs_strerror w;
     fs_short_write := fs_short_write w;
     net_refuses := net_refuses w; net_script := net_script w;
     trace := trace w |}.

Definition set_script (s : list HttpOutcome) (w : World) : World :=
  {| environ := environ w; fs_dirs := fs_dirs w; fs_files := fs_files w;
     fs_refuses := fs_refuses w; fs_strerror := fs_strerror w;
     fs_short_write := fs_short_write w;
     net_refuses := net_refuses w; net_script := s;
     trace := trace w |}.

(** ** The monad: state passing over [World], with exceptions *)

Definition M (A : Type) : Type := World → Outcome A * World.

#[global] Instance M_ret : MRet M := λ A a w, (Return a, w).
#[global] Instance M_bind : MBind M := λ A B f m w,
  match m w with
  | (Return a, w') => f a w'
  | (Raise e, w') => (Raise e, w')
  end.

(** A pure computation that may raise, run inside [M]. *)
Definition lift {A} (o : Outcome A) : M A := λ w, (o, w).

(** [try: body except <class> as e: handler e] *)
Definition try_except {A} (body : M A) (catches : Exn → bool)
    (handler : Exn → M A) : M A := λ w,
  match body w with
  | (Raise e, w') => if catches e then handler e w' else (Raise e, w')
  | r => r
  end.

(** *** Logging and the environment *)

Definition logger_info (msg : string) : M unit :=
  λ w, (Return (), emit (EvLog INFO msg) w).

Definition logger_error (msg : string) : M unit :=
  λ w, (Return (), emit (EvLog ERROR msg) w).

(** [os.environ.get(name)] *)
Definition os_environ_get (name : string) : M (option string) :=
  λ w, (Return (environ w !! name), w).

(** *** The file system *)

Definition nul : ascii := ascii_of_nat 0.

(** The name a directory is filed under: without trailing separators. *)
Definition dir_name (p : string) : string :=
  if PyStr.forallb OsPath.is_sep p then p else OsPath.rstrip_sep p.

(** [os.path.isdir(p)], [os.path.isfile(p)] and [os.path.exists(p)]: false
    for the empty name and for a name with a NUL. *)
Definition path_isdir (w : World) (p : string) : bool :=
  negb (String.eqb p "") && negb (PyStr.contains nul p)
  && (PyStr.forallb OsPath.is_sep p || bool_decide (dir_name p ∈ fs_dirs w)).

Definition path_isfile (w : World) (p : string) : bool :=
  negb (PyStr.contains nul p) && bool_decide (is_Some (fs_files w !! p)).

Definition path_exists (w : World) (p : string) : bool :=
  path_isdir w p || path_isfile w p.

(** What stands in the way of a new entry [p] whose parent is [parent]: the
    parent is missing or no directory, or the file system refuses. *)
Definition entry_error (w : World) (p parent : string) : option Exn :=
  if negb (String.eqb parent "") && negb (path_isdir w parent)
  then Some (if path_isfile w parent
             then OSError NotADirectoryError (fs_strerror w NotADirectoryError p)
             else OSError FileNotFoundError (fs_strerror w FileNotFoundError p))
  else if fs_refuses w p
  then Some (OSError OtherOSError (fs_strerror w OtherOSError p))
  else None.

(** The exception of [os.mkdir(p)], if it raises: the name is taken when it
    denotes a directory or a file, with or without trailing separators. *)
Definition mkdir_error (w : World) (p : string) : option Exn :=
  if String.eqb p ""
  then Some (OSError FileNotFoundError (fs_strerror w FileNotFoundError p))
  else if PyStr.contains nul p then Some (ValueError "embedded null byte")
  else if path_exists w p || path_isfile w (dir_name p)
  then Some (OSError FileExistsError (fs_strerror w FileExistsError p))
  else entry_error w p (OsPath.dirname (dir_name p)).

Definition os_mkdir (p : string) : M unit := λ w,
  match mkdir_error w p with
  | Some e => (Raise e, w)
  | None => (Return (), set_dirs ({[dir_name p]} ∪ fs_dirs w) w)
  end.

(** The end of [os.makedirs]:
    [try: mkdir(name) except OSError: if not path.isdir(name): raise] *)
Definition mkdir_exist_ok (name : string) : M unit := λ w,
  match os_mkdir name w with
  | (Raise e, w') =>
      if is_OSError e && path_isdir w' name then (Return (), w') else (Raise e, w')
  | r => r
  end.

(** The body of [os.makedirs(name, exist_ok=True)] (os.py).  The recursion
    is on the head of [name], which is shorter: [fuel] counts its length. *)
Fixpoint makedirs_go (fuel : nat) (name : string) : M unit :=
  match fuel with
  | O => mkdir_exist_ok name
  | S fuel =>
      let '(head, tail) := OsPath.split name in
      let '(head, tail) :=
        if String.eqb tail "" then OsPath.split head else (head, tail) in
      λ w,
        if negb (String.eqb head "") && negb (String.eqb tail "")
           && negb (path_exists w head)
        then
          match makedirs_go fuel head w with
          | (Raise (OSError FileExistsError _), w')
          | (Return _, w') =>
              if String.eqb tail "."
              then (* "xxx/newdir/. exists if xxx/newdir exists": nothing is
                      made, the name is filed as the directory it denotes *)
                (Return (), set_dirs ({[dir_name name]} ∪ fs_dirs w') w')
              else mkdir_exist_ok name w'
          | (Raise e, w') => (Raise e, w')
          end
        else mkdir_exist_ok name w
  end.

(** [os.makedirs(name, exist_ok=True)] *)
Definition os_makedirs (name : string) : M unit := λ w,
  makedirs_go (String.length name) name (emit (EvMakedirs name) w).

(** The exception of [open(path, 'wb')], if it raises. *)
Definition open_error (w : World) (path : string) : option Exn :=
  if String.eqb path ""
  then Some (OSError FileNotFoundError (fs_strerror w FileNotFoundError path))
  else if PyStr.contains nul path then Some (ValueError "embedded null byte")
  else if path_isdir w path
  then Some (OSError IsADirectoryError (fs_strerror w IsADirectoryError path))
  else entry_error w path (OsPath.dirname path).

(** [open(path, 'wb')]: the file exists and is empty afterwards; the handle
    is the path. *)
Definition open_wb (path : string) : M string := λ w,
  let w := emit (EvOpen path "wb") w in
  match open_error w path with
  | Some e => (Raise e, w)
  | None => (Return path, set_files (<[path := []]> (fs_files w)) w)
  end.

(** [f.write(data)] on a handle from [open_wb], up to the end of the [with]
    block: [data] goes to the end of what the file holds, or only its first
    bytes when the file system cuts the write short, and OSError is raised. *)
Definition file_write (f : string) (data : list Byte.byte) : M unit := λ w,
  let held := default [] (fs_files w !! f) in
  let w := emit (EvWrite f data) w in
  match fs_short_write w f data with
  | Some n =>
      (Raise (OSError OtherOSError (fs_strerror w OtherOSError f)),
       set_files (<[f := (held ++ take n data)%list]> (fs_files w)) w)
  | None => (Return (), set_files (<[f := (held ++ data)%list]> (fs_files w)) w)
  end.

(** *** requests *)

(** What a call of [requests.post] gives in world [w]: the exception the
    library raises for the call itself, else the next outcome of the script
    (a connection failure when the script is empty). *)
Definition post_result (w : World) (call : Request) : Outcome Response :=
  match net_refuses w call with
  | Some e => Raise e
  | None =>
      match net_script w with
      | Responds r :: _ => Return r
      | Fails msg response :: _ => Raise (RequestException msg response)
      | [] => Raise (RequestException "connection failed" None)
      end
  end.

(** [requests.post(url, json=json, headers=headers)] *)
Definition requests_post (url : string) (json headers : list (string * string))
    : M Response := λ w,
  let call := {| req_method := "POST"; req_url := url;
                 req_json := json; req_headers := headers |} in
  let w := emit (EvRequest call) w in
  (post_result w call,
   match net_refuses w call with
   | Some _ => w
   | None => set_script (tail (net_script w)) w
   end).

(** [Response.raise_for_status()] (requests/models.py): HTTPError for a
    status from 400 to 599, and only for those. *)
Definition http_error_msg (r : Response) : string :=
  if ((400 <=? status_code r) && (status_code r <? 500))%Z
  then pretty (status_code r) +:+ " Client Error: " +:+ reason r
       +:+ " for url: " +:+ resp_url r
  else if ((500 <=? status_code r) && (status_code r <? 600))%Z
  then pretty (status_code r) +:+ " Server Error: " +:+ reason r
       +:+ " for url: " +:+ resp_url r
  else "".

Definition raise_for_status (r : Response) : M unit :=
  if negb (String.eqb (http_error_msg r) "")
  then lift (Raise (RequestException (http_error_msg r) (Some r)))
  else mret ().

(** [l.index(x)] and [l[i]] with their exceptions *)
Definition py_index (x : string) (l : list string) : Outcome nat :=
  match list_index x l with
  | Some i => Return i
  | None => Raise (ValueError ("'" +:+ x +:+ "' is not in list"))
  end.

Definition py_getitem (l : list string) (i : nat) : Outcome string :=
  match l !! i with
  | Some x => Return x
  | None => Raise (IndexError "list index out of range")
  end.

(** [d[k]] on a dict *)
Definition py_dict_getitem (d : gmap string (list string)) (k : string)
    : Outcome (list string) :=
  match d !! k with
  | Some v => Return v
  | None => Raise (KeyError ("'" +:+ k +:+ "'"))
  end.

(** ** The program *)

Section Program.
Context {checks : UrllibParse.NetlocChecks} {unicode : PyStr.UnicodeCase}.

(** [extract_design_id(canva_url)], lines 19-47 *)
Definition extract_design_id (canva_url : string) : M (option string) :=
  try_except
    (parsed_url ← lift (UrllibParse.urlparse canva_url);
     let path_parts := PyStr.split "/" (UrllibParse.path parsed_url) in
     (* Look for the design ID in the path (usually after '/design/') *)
     from_path ←
       (if bool_decide ("design" ∈ path_parts) then
          i ← lift (py_index "design" path_parts);
          let design_index := (i + 1)%nat in
          if (design_index <? length path_parts)%nat then
            design_id ← lift (py_getitem path_parts design_index);
            logger_info ("Extracted design ID: " +:+ design_id);;
            mret (Some design_id)
          else mret None
        else mret None);
     match from_path with
     | Some design_id => mret (Some design_id)
     | None =>
         (* Fallback: check query parameters *)
         let query_params := UrllibParse.parse_qs (UrllibParse.query parsed_url) in
         if bool_decide ("utm_content" ∈ dom query_params) then
           values ← lift (py_dict_getitem query_params "utm_content");
           design_id ← lift (py_getitem values 0);
           logger_info ("Extracted design ID from query: " +:+ design_id);;
           mret (Some design_id)
         else
           logger_error "Could not extract design ID from URL.";;
           mret None
     end)
    is_Exception
    (λ e, logger_error ("Error extracting design ID: " +:+ exn_str e);;
          mret None).

(** [download_canva_design(design_id, api_key, output_dir, format)],
    lines 49-89 *)
Definition download_canva_design (design_id api_key output_dir format : string)
    : M (option string) :=
  (* Canva API endpoint *)
  let api_url := "https://api.canva.com/v1/designs/" +:+ design_id +:+ "/export" in
  let headers := [("Authorization", "Bearer " +:+ api_key);
                  ("Content-Type", "application/json")] in
  let payload := [("format", PyStr.upper format); ("pages", "all")] in
  (* Create output directory if it doesn't exist *)
  os_makedirs output_dir;;
  let output_filename := design_id +:+ "." +:+ PyStr.lower format in
  let output_path := OsPath.join output_dir output_filename in
  try_except
    (logger_info ("Requesting design " +:+ design_id +:+ " from Canva API...");;
     response ← requests_post api_url payload headers;
     raise_for_status response;;
     f ← open_wb output_path;
     file_write f (content response);;
     logger_info ("Design downloaded successfully: " +:+ output_path);;
     mret (Some output_path))
    is_RequestException
    (λ e, logger_error ("API request failed: " +:+ exn_str e);;
          (* hasattr(e.response, 'status_code') *)
          match exn_response e with
          | Some r => logger_error ("Status code: " +:+ pretty (status_code r))
          | None => mret ()
          end;;
          mret None).

(** The command line after [parser.parse_args()]: [--format] is restricted
    to its three choices, [--api-key] may be absent. *)
Inductive Format := pdf | png | jpg.

Definition format_str (f : Format) : string :=
  match f with pdf => "pdf" | png => "png" | jpg => "jpg" end.

Record Args := {
  args_url : string;
  args_api_key : option string;
  args_output_dir : string;
  args_format : Format
}.

(** [not v] for a value that is a str or None *)
Definition py_not (v : option string) : bool :=
  match v with
  | None => true
  | Some s => String.eqb s ""
  end.

(** [main()], lines 101-114: what it does with the namespace that
    [parser.parse_args()] returned.  (On a command line that argparse
    rejects, [parse_args] exits the interpreter with SystemExit before
    these lines are reached.) *)
Definition main (args : Args) : M unit :=
  (* Get API key from argument or environment variable *)
  api_key ← (if py_not (args_api_key args) then os_environ_get "CANVA_API_KEY"
             else mret (args_api_key args));
  if py_not api_key then
    logger_error "No API key provided. Use --api-key or set CANVA_API_KEY environment variable."
  else
    (* Extract design ID from URL *)
    design_id ← extract_design_id (args_url args);
    if py_not design_id then
      logger_error "Failed to extract design ID. Exiting."
    else
      (* Download the design *)
      download_canva_design (default "" design_id) (default "" api_key)
                            (args_output_dir args) (format_str (args_format args));;
      logger_info "Sync completed.".

End Program.

(** ** The two strategies of the extractor, as the specification words them

    "Parse the URL path into segments; if a segment equals a fixed literal
    marker, return the segment immediately following it" and "parse the
    URL's query string and look for a specific well-known parameter name; if
    present, return its first value". *)

Definition marker_strategy (path : string) : option string :=
  let segments := PyStr.split "/" path in
  match list_index "design" segments with
  | Some i => segments !! S i
  | None => None
  end.

Definition query_strategy (qs : string) : option string :=
  match UrllibParse.parse_qs qs !! "utm_content" with
  | Some (v :: _) => Some v
  | _ => None
  end.

(** What [main] does once it holds a credential (lines 106-114). *)
Definition main_with_credential {checks : UrllibParse.NetlocChecks}
    {unicode : PyStr.UnicodeCase} (api_key : string) (args : Args) : M unit :=
  design_id ← extract_design_id (args_url args);
  if py_not design_id then
    logger_error "Failed to extract design ID. Exiting."
  else
    download_canva_design (default "" design_id) api_key
                          (args_output_dir args) (format_str (args_format args));;
    logger_info "Sync completed.".

(** Checks that accept every host: on a URL whose host is ASCII and has no
    bracket, [urlsplit] consults neither of them. *)
Definition lenient_checks : UrllibParse.NetlocChecks :=
  {| UrllibParse.check_bracketed_netloc := λ _, None;
     UrllibParse.nfkc := λ s, s |}.

(** A case mapping that leaves text outside ASCII alone: on ASCII text,
    [str.upper] and [str.lower] do not consult it. *)
Definition ascii_case : PyStr.UnicodeCase :=
  {| PyStr.unicode_upper := λ s, s; PyStr.unicode_lower := λ s, s |}.

(** The text of an OSError on Linux, for a name that [repr] leaves as it
    is: the errno of its class (EACCES for the others) and the name. *)
Definition posix_strerror (kind : OSErrorKind) (name : string) : string :=
  match kind with
  | FileNotFoundError => "[Errno 2] No such file or directory"
  | FileExistsError => "[Errno 17] File exists"
  | NotADirectoryError => "[Errno 20] Not a directory"
  | IsADirectoryError => "[Errno 21] Is a directory"
  | OtherOSError => "[Errno 13] Permission denied"
  end +:+ ": '" +:+ name +:+ "'".

(** A world with nothing in it: no variable, no file, no directory but the
    current one and the root, a file system and an HTTP stack that refuse
    nothing, and no answer waiting.  And a network script on top of it. *)
Definition empty_world : World :=
  {| environ := ∅; fs_dirs := ∅; fs_files := ∅;
     fs_refuses := λ _, false; fs_strerror := posix_strerror;
     fs_short_write := λ _ _, None;
     net_refuses := λ _, None; net_script := []; trace := [] |}.

Definition answering (script : list HttpOutcome) : World :=
  set_script script empty_world.

(** The same with a file system and an HTTP stack that refuse: the write
    stops after [n] bytes when [short] is [Some n], and [requests.post]
    raises [e] when [refused] is [Some e]. *)
Definition refusing (short : option nat) (refused : option Exn)
    (script : list HttpOutcome) : World :=
  {| environ := ∅; fs_dirs := ∅; fs_files := ∅;
     fs_refuses := λ _, false; fs_strerror := posix_strerror;
     fs_short_write := λ _ _, short;
     net_refuses := λ _, refused; net_script := script; trace := [] |}.

(** The values [parse_qs] files under a name: at least one, none empty. *)
Definition good_values (vs : list string) : Prop := vs ≠ [] ∧ Forall (λ v, v ≠ "") vs.

(** ** The fetcher, in the words of the specification *)

(** The call of [requests.post] the fetcher makes, and the file it writes
    to. *)
Definition export_request {unicode : PyStr.UnicodeCase}
    (design_id api_key format : string) : Request :=
  {| req_method := "POST";
     req_url := "https://api.canva.com/v1/designs/" +:+ design_id +:+ "/export";
     req_json := [("format", PyStr.upper format); ("pages", "all")];
     req_headers := [("Authorization", "Bearer " +:+ api_key);
                     ("Content-Type", "application/json")] |}.

Definition output_path {unicode : PyStr.UnicodeCase}
    (design_id output_dir format : string) : string :=
  OsPath.join output_dir (design_id +:+ "." +:+ PyStr.lower format).

(** The statuses [raise_for_status] rejects. *)
Definition error_status (r : Response) : bool :=
  ((400 <=? status_code r) && (status_code r <? 600))%Z.

(** The statuses HTTP calls successful. *)
Definition success_status (r : Response) : bool :=
  ((200 <=? status_code r) && (status_code r <? 300))%Z.

(** The calls of [requests.post] among a list of events. *)
Definition request_of (e : Event) : option Request :=
  match e with
  | EvRequest r => Some r
  | _ => None
  end.

(** The call of [requests.post] brings back no body to write: it raises a
    RequestException, or returns a status [raise_for_status] rejects. *)
Definition request_fails (w : World) (call : Request) : bool :=
  match post_result w call with
  | Return r => error_status r
  | Raise e => is_RequestException e
  end.

(** What the handler of the fetcher logs for the exception [e]. *)
Definition failure_lines (e : Exn) : list Event :=
  EvLog ERROR ("API request failed: " +:+ exn_str e)
  :: match exn_response e with
     | Some r => [EvLog ERROR ("Status code: " +:+ pretty (status_code r))]
     | None => []
     end.

(** The calls every run of the fetcher starts with, when [os.makedirs]
    returns. *)
Definition request_events {unicode : PyStr.UnicodeCase}
    (design_id api_key output_dir format : string) : list Event :=
  [EvMakedirs output_dir;
   EvLog INFO ("Requesting design " +:+ design_id +:+ " from Canva API...");
   EvRequest (export_request design_id api_key format)].

(** The world with [events] added to its trace. *)
Definition emits (events : list Event) (w : World) : World :=
  fold_left (λ w e, emit e w) events w.

(** What a file system call that writes no file may change: the
    directories, which only grow. *)
Definition dirs_grow (w w' : World) : Prop :=
  ∃ d, fs_dirs w ⊆ d ∧ w' = set_dirs d w.

(** The fetcher from its [try] on (lines 73-89), as a decision table over
    what [requests.post], [raise_for_status], [open] and [write] do. *)
Definition fetch_table {unicode : PyStr.UnicodeCase}
    (design_id api_key output_dir format : string) (w1 : World)
    : Outcome (option string) * World :=
  let call := export_request design_id api_key format in
  let file := output_path design_id output_dir format in
  let w2 := (requests_post (req_url call) (req_json call) (req_headers call)
               (emit (EvLog INFO ("Requesting design " +:+ design_id
                                  +:+ " from Canva API...")) w1)).2 in
  let handled e := (Return None, emits (failure_lines e) w2) in
  match post_result w1 call with
  | Raise e => if is_RequestException e then handled e else (Raise e, w2)
  | Return r =>
      if error_status r then handled (RequestException (http_error_msg r) (Some r))
      else
        let w3 := emit (EvOpen file "wb") w2 in
        match open_error w1 file with
        | Some e => (Raise e, w3)
        | None =>
            let w4 := emit (EvWrite file (content r)) w3 in
            match fs_short_write w1 file (content r) with
            | Some n =>
                (Raise (OSError OtherOSError (fs_strerror w1 OtherOSError file)),
                 set_files (<[file := take n (content r)]> (fs_files w1)) w4)
            | None =>
                (Return (Some file),
                 emit (EvLog INFO ("Design downloaded successfully: " +:+ file))
                      (set_files (<[file := content r]> (fs_files w1)) w4))
            end
        end
  end.

(** Answers for the concrete runs: a 200 and a 201 with different bodies, a
    300 (which [requests] does not follow and [raise_for_status] does not
    reject) with a body, and a 404. *)
Definition ok_response : Response :=
  {| status_code := 200; reason := "OK";
     resp_url := "https://api.canva.com/v1/designs/ABC123/export";
     content := [Byte.x25; Byte.x50] |}.

Definition multiple_choices_response : Response :=
  {| status_code := 300; reason := "Multiple Choices";
     resp_url := "https://api.canva.com/v1/designs/ABC123/export";
     content := [Byte.x3c; Byte.x3e] |}.

Definition created_response : Response :=
  {| status_code := 201; reason := "Created";
     resp_url := "https://api.canva.com/v1/designs/ABC123/export";
     content := [Byte.x25; Byte.x50; Byte.x44; Byte.x46] |}.

Definition not_found_response : Response :=
  {| status_code := 404; reason := "Not Found";
     resp_url := "https://api.canva.com/v1/designs/ABC123/export";
     content := [] |}.

(** ** Share links of the documented form

    The docstring of [extract_design_id] gives the expected format,
    https://www.canva.com/design/DESIGN_ID/view.  A token is plain when it
    holds none of the characters that URL splitting gives a meaning to or
    strips: '/', '?', '#', ';', tab, carriage return, line feed. *)

Definition reserved_chars : list ascii :=
  ["/"%char; "?"%char; "#"%char; ";"%char;
   ascii_of_nat 9; ascii_of_nat 13; ascii_of_nat 10].

Definition plain_token (s : string) : bool :=
  forallb (λ c, negb (PyStr.contains c s)) reserved_chars.

Definition view_link (design_id : string) : string :=
  "https://www.canva.com/design/" +:+ design_id +:+ "/view".

(** The separator [os.path.join] puts after [output_dir]. *)
Definition join_separator (output_dir : string) : string :=
  if String.eqb output_dir "" || PyStr.endswith "/" output_dir then "" else "/".

(** An event with the headers of its request blanked: what is left of a run
    once the credential is taken out of view. *)
Definition redact (e : Event) : Event :=
  match e with
  | EvRequest r =>
      EvRequest {| req_method := req_method r; req_url := req_url r;
                   req_json := req_json r; req_headers := [] |}
  | _ => e
  end.

(** Running the monad in a proof. *)
Ltac run :=
  unfold mbind, mret, M_bind, M_ret, lift, try_except, logger_info, logger_error; simpl.

(** * Properties *)

(** ** Strings and lists *)

Lemma split_not_nil sep s : PyStr.split sep s ≠ [].
Proof.
  destruct s as [|a r]; simpl; [done|].
  destruct (Ascii.eqb a sep); [done|].
  by destruct (PyStr.split sep r).
Qed.

Lemma split_single_empty sep s : PyStr.split sep s = [""] → s = "".
Proof.
  destruct s as [|a r]; simpl; [done|].
  destruct (Ascii.eqb a sep).
  - intros [= Hr]. by apply split_not_nil in Hr.
  - by destruct (PyStr.split sep r).
Qed.

Lemma app_empty_inv (s t : string) : s +:+ t = "" → s = "" ∧ t = "".
Proof. by destruct s. Qed.

Lemma list_index_elem_of x l : x ∈ l → ∃ i, list_index x l = Some i ∧ (i < length l)%nat.
Proof.
  induction l as [|y l IH]; [by intros ?%elem_of_nil|].
  intros Hin. simpl. destruct (String.eqb_spec y x) as [->|Hne].
  - exists 0%nat. split; [done|lia].
  - apply elem_of_cons in Hin as [->|Hin]; [done|].
    destruct (IH Hin) as (i & -> & Hi). exists (S i). split; [done|lia].
Qed.

Lemma list_index_not_elem_of x l : x ∉ l → list_index x l = None.
Proof.
  induction l as [|y l IH]; [done|].
  intros Hnin. apply not_elem_of_cons in Hnin as [Hne Hnin]. simpl.
  destruct (String.eqb_spec y x) as [->|_]; [done|]. by rewrite IH.
Qed.

Lemma list_index_first x pre post :
  x ∉ pre → list_index x (pre ++ x :: post)%list = Some (length pre).
Proof.
  induction pre as [|y pre IH]; simpl.
  - by rewrite String.eqb_refl.
  - intros [Hne Hnin]%not_elem_of_cons.
    destruct (String.eqb_spec y x) as [->|_]; [done|]. by rewrite IH.
Qed.

(** ** urllib.parse: decoding never empties a value *)

Section Unquote.
Import UrllibParse.

Lemma unquote_item_nonempty item : unquote_item item ≠ "".
Proof.
  unfold unquote_item. destruct item as [|h [|l rest]]; [done..|].
  by destruct (hex_value h), (hex_value l).
Qed.

Lemma unquote_impl_empty s : unquote_impl s = "" → s = "".
Proof.
  unfold unquote_impl. destruct (PyStr.split "%" s) as [|bit bits] eqn:Hs; [|].
  { by apply split_not_nil in Hs. }
  intros [-> Hj]%app_empty_inv. destruct bits as [|item bits].
  - by apply split_single_empty in Hs.
  - simpl in Hj. apply app_empty_inv in Hj as [Hitem _].
    by apply unquote_item_nonempty in Hitem.
Qed.

Lemma decode_replace_empty s : decode_replace s = "" → s = "".
Proof.
  destruct s as [|b0 r0]; [done|]. simpl.
  repeat (case_match; try discriminate).
Qed.

Lemma unquoted_parts_empty run s : unquoted_parts run s = "" → run = "" ∧ s = "".
Proof.
  revert run. induction s as [|c r IH]; intros run; simpl.
  - intros Hd%decode_replace_empty%unquote_impl_empty. done.
  - destruct (PyStr.isascii c).
    + intros [Hrun _]%IH. by destruct run.
    + intros [_ ?]%app_empty_inv. done.
Qed.

Lemma unquote_empty s : unquote s = "" → s = "".
Proof.
  unfold unquote. destruct (negb _); [done|].
  by intros [_ ?]%unquoted_parts_empty.
Qed.

Lemma replace_empty c d s : PyStr.replace c d s = "" → s = "".
Proof. by destruct s. Qed.

Lemma parse_field_value name_value name value :
  parse_field name_value = Some (name, value) → value ≠ "".
Proof.
  unfold parse_field. destruct (PyStr.split1 "=" name_value) as [n [v|]]; [|done].
  destruct (0 <? String.length v)%nat eqn:Hlen; [|done].
  intros [= _ <-] Hv%unquote_empty%replace_empty. by subst v.
Qed.

Lemma parse_qsl_values qs : Forall (λ nv, nv.2 ≠ "") (parse_qsl qs).
Proof.
  unfold parse_qsl. apply Forall_forall. intros [name value] Hin.
  apply list_elem_of_omap in Hin as (name_value & _ & Hf).
  by eapply parse_field_value.
Qed.

Lemma parse_qs_fold pairs (acc : gmap string (list string)) :
  Forall (λ nv, nv.2 ≠ "") pairs →
  map_Forall (λ _, good_values) acc →
  map_Forall (λ _, good_values)
    (fold_left (λ (parsed_result : gmap string (list string)) '(name, value),
                match parsed_result !! name with
                | Some values => <[name := (values ++ [value])%list]> parsed_result
                | None => <[name := [value]]> parsed_result
                end) pairs acc).
Proof.
  revert acc. induction pairs as [|[name value] pairs IH]; intros acc Hp Hacc; [done|].
  apply Forall_cons in Hp as [Hv Hp]. simpl in *. apply IH; [done|].
  destruct (acc !! name) as [values|] eqn:Hlook.
  - apply map_Forall_insert_2; [|done].
    destruct (Hacc _ _ Hlook) as [_ Hall]. split; [by destruct values|].
    apply Forall_app. split; [done|]. by apply Forall_singleton.
  - apply map_Forall_insert_2; [|done]. split; [done|]. by apply Forall_singleton.
Qed.

Lemma parse_qs_values qs name vs : parse_qs qs !! name = Some vs → good_values vs.
Proof.
  intros Hlook. eapply (parse_qs_fold (parse_qsl qs) ∅); [apply parse_qsl_values| |done].
  apply map_Forall_empty.
Qed.

End Unquote.

Lemma query_strategy_lookup qs :
  query_strategy qs = (UrllibParse.parse_qs qs !! "utm_content") ≫= head.
Proof. unfold query_strategy. by destruct (_ !! _) as [[|v vs]|]. Qed.

Lemma query_strategy_nonempty qs v : query_strategy qs = Some v → v ≠ "".
Proof.
  unfold query_strategy. destruct (_ !! _) as [[|v' vs]|] eqn:Hlook; try done.
  intros [= ->]. apply parse_qs_values in Hlook as [_ Hall].
  by apply Forall_cons in Hall as [? _].
Qed.

(** ** The extractor *)

Section Extractor.
Context {checks : UrllibParse.NetlocChecks}.
Import UrllibParse.

(** The extractor is the first strategy that answers, and logs one line. *)
Lemma extract_design_id_run url w :
  extract_design_id url w =
    match urlparse url with
    | Raise e =>
        (Return None, emit (EvLog ERROR ("Error extracting design ID: " +:+ exn_str e)) w)
    | Return r =>
        match marker_strategy (path r) with
        | Some id =>
            (Return (Some id), emit (EvLog INFO ("Extracted design ID: " +:+ id)) w)
        | None =>
            match query_strategy (query r) with
            | Some id =>
                (Return (Some id),
                 emit (EvLog INFO ("Extracted design ID from query: " +:+ id)) w)
            | None =>
                (Return None,
                 emit (EvLog ERROR "Could not extract design ID from URL.") w)
            end
        end
    end.
Proof.
  unfold extract_design_id, marker_strategy, query_strategy.
  destruct (urlparse url) as [r|e] eqn:Hparse; run; [|done].
  set (parts := PyStr.split "/" (path r)).
  (* the fallback, whatever made the first strategy give up *)
  assert (Hdom : bool_decide ("utm_content" ∈ dom (parse_qs (query r)))
                 = bool_decide (is_Some (parse_qs (query r) !! "utm_content"))).
  { apply bool_decide_ext, elem_of_dom. }
  assert (Hvals : ∀ vs, parse_qs (query r) !! "utm_content" = Some vs → ∃ v vs', vs = v :: vs').
  { intros [|v vs'] [Hne _]%parse_qs_values; [done|eauto]. }
  rewrite Hdom. unfold py_dict_getitem, py_getitem, py_index.
  destruct (decide ("design" ∈ parts)) as [Hin|Hnin].
  - rewrite (bool_decide_eq_true_2 _ Hin).
    destruct (list_index_elem_of _ _ Hin) as (i & Hi & Hlt). rewrite Hi.
    replace (i + 1)%nat with (S i) by lia.
    destruct (S i <? length parts)%nat eqn:Hlen.
    + apply Nat.ltb_lt in Hlen.
      destruct (lookup_lt_is_Some_2 parts (S i) Hlen) as [id Hid]. by rewrite Hid.
    + apply Nat.ltb_ge in Hlen. rewrite (lookup_ge_None_2 parts (S i)); [|done].
      destruct (parse_qs (query r) !! "utm_content") as [vs|] eqn:Hlook; [|done].
      destruct (Hvals _ eq_refl) as (v & vs' & ->). done.
  - rewrite (bool_decide_eq_false_2 _ Hnin), (list_index_not_elem_of _ _ Hnin).
    destruct (parse_qs (query r) !! "utm_content") as [vs|] eqn:Hlook; [|done].
    destruct (Hvals _ eq_refl) as (v & vs' & ->). done.
Qed.

End Extractor.

(** ** The file system *)

Lemma set_dirs_same w : set_dirs (fs_dirs w) w = w.
Proof. by destruct w. Qed.

Lemma dirs_grow_refl w : dirs_grow w w.
Proof. exists (fs_dirs w). by rewrite set_dirs_same. Qed.

Lemma dirs_grow_trans w1 w2 w3 : dirs_grow w1 w2 → dirs_grow w2 w3 → dirs_grow w1 w3.
Proof.
  intros (d1 & H1 & ->) (d2 & H2 & ->). exists d2. split; [|done].
  simpl in H2. by etrans.
Qed.

Lemma os_mkdir_grow p w : dirs_grow w (os_mkdir p w).2.
Proof.
  unfold os_mkdir. destruct (mkdir_error w p); simpl; [apply dirs_grow_refl|].
  eexists. split; [|done]. apply union_subseteq_r.
Qed.

Lemma mkdir_exist_ok_grow name w : dirs_grow w (mkdir_exist_ok name w).2.
Proof.
  unfold mkdir_exist_ok. pose proof (os_mkdir_grow name w) as H.
  destruct (os_mkdir name w) as [[[]|e] w']; simpl in *; [done|].
  by destruct (is_OSError e && path_isdir w' name).
Qed.

Lemma makedirs_go_grow fuel name w : dirs_grow w (makedirs_go fuel name w).2.
Proof.
  revert name w. induction fuel as [|fuel IH]; intros name w; cbn [makedirs_go].
  - apply mkdir_exist_ok_grow.
  - destruct (OsPath.split name) as [head0 tail0].
    destruct (if String.eqb tail0 "" then OsPath.split head0 else (head0, tail0))
      as [head tail].
    destruct (negb (String.eqb head "") && negb (String.eqb tail "")
              && negb (path_exists w head)); [|apply mkdir_exist_ok_grow].
    pose proof (IH head w) as Hhead.
    assert (Hnext : ∀ w', dirs_grow w w' →
              dirs_grow w
                (if String.eqb tail "."
                 then (Return (), set_dirs ({[dir_name name]} ∪ fs_dirs w') w')
                 else mkdir_exist_ok name w').2).
    { intros w' Hw'. destruct (String.eqb tail ".").
      - eapply dirs_grow_trans; [exact Hw'|]. eexists. split; [|done].
        apply union_subseteq_r.
      - eapply dirs_grow_trans; [exact Hw'|]. apply mkdir_exist_ok_grow. }
    destruct (makedirs_go fuel head w) as [[[]|e] w']; simpl in Hhead.
    + by apply Hnext.
    + destruct e as [| | | |kind msg|]; try done.
      destruct kind; try done. by apply Hnext.
Qed.

Lemma os_makedirs_grow name w :
  dirs_grow (emit (EvMakedirs name) w) (os_makedirs name w).2.
Proof. apply makedirs_go_grow. Qed.

(** *** Names without a NUL *)

Lemma contains_cons c a s :
  PyStr.contains c (String a s) = Ascii.eqb a c || PyStr.contains c s.
Proof.
  unfold PyStr.contains. simpl. destruct (Ascii.eqb a c); [done|].
  by destruct (PyStr.find c s).
Qed.

Lemma contains_app c s t :
  PyStr.contains c (s +:+ t) = PyStr.contains c s || PyStr.contains c t.
Proof.
  induction s as [|a s IH]; [done|].
  change (String a s +:+ t) with (String a (s +:+ t)).
  by rewrite !contains_cons, IH, orb_assoc.
Qed.

Lemma contains_rev_app c s t :
  PyStr.contains c (String.rev_app s t) = PyStr.contains c s || PyStr.contains c t.
Proof.
  revert t. induction s as [|a s IH]; intros t; [done|]. simpl.
  rewrite IH, !contains_cons. destruct (Ascii.eqb a c); simpl;
    [by rewrite orb_true_r|done].
Qed.

Lemma contains_rev c s : PyStr.contains c (String.rev s) = PyStr.contains c s.
Proof.
  unfold String.rev. rewrite contains_rev_app.
  change (PyStr.contains c "") with false. by rewrite orb_false_r.
Qed.

Lemma contains_lstrip P c s :
  P c = false → PyStr.contains c (PyStr.lstrip P s) = PyStr.contains c s.
Proof.
  intros HP. induction s as [|a s IH]; [done|]. simpl.
  destruct (P a) eqn:Ha; [|done]. rewrite IH, contains_cons.
  destruct (Ascii.eqb_spec a c) as [->|_]; [congruence|done].
Qed.

Lemma contains_rstrip_sep c s :
  OsPath.is_sep c = false → PyStr.contains c (OsPath.rstrip_sep s) = PyStr.contains c s.
Proof.
  intros Hc. unfold OsPath.rstrip_sep.
  by rewrite contains_rev, contains_lstrip, contains_rev.
Qed.

Lemma take_drop_string n s : PyStr.take n s +:+ PyStr.drop n s = s.
Proof.
  revert s. induction n as [|n IH]; intros [|a s]; simpl; try done.
  change (String a (PyStr.take n s) +:+ PyStr.drop n s)
    with (String a (PyStr.take n s +:+ PyStr.drop n s)).
  by rewrite IH.
Qed.

Lemma split_contains c p :
  OsPath.is_sep c = false →
  PyStr.contains c p
  = PyStr.contains c (OsPath.split p).1 || PyStr.contains c (OsPath.split p).2.
Proof.
  intros Hc. unfold OsPath.split. cbv zeta. cbn [fst snd].
  set (i := match PyStr.rfind "/" p with Some i => S i | None => 0%nat end).
  rewrite <- (take_drop_string i p) at 1. rewrite contains_app. f_equal.
  destruct (negb (String.eqb (PyStr.take i p) "")
            && negb (PyStr.forallb OsPath.is_sep (PyStr.take i p))); [|done].
  by rewrite contains_rstrip_sep.
Qed.

Lemma split_of_empty : OsPath.split "" = ("", "").
Proof. reflexivity. Qed.

(** A name [os.makedirs] treats as [head]/.: free of NUL when [head] is,
    and not empty. *)
Lemma makedirs_dot_name name head :
  (let '(head0, tail0) := OsPath.split name in
   if String.eqb tail0 "" then OsPath.split head0 else (head0, tail0)) = (head, ".") →
  PyStr.contains nul head = false →
  name ≠ "" ∧ PyStr.contains nul name = false.
Proof.
  intros Hsplit Hhead.
  assert (Hnul : OsPath.is_sep nul = false) by reflexivity.
  split.
  - intros ->. by rewrite split_of_empty in Hsplit.
  - rewrite (split_contains nul name Hnul).
    destruct (OsPath.split name) as [head0 tail0]. cbn [fst snd].
    destruct (String.eqb tail0 "") eqn:Htail.
    + apply String.eqb_eq in Htail as ->.
      rewrite (split_contains nul head0 Hnul), Hsplit. cbn [fst snd].
      by rewrite Hhead.
    + injection Hsplit as -> ->. by rewrite Hhead.
Qed.

(** *** What [os.makedirs] leaves *)

Lemma path_isdir_no_nul w p :
  path_isdir w p = true → p ≠ "" ∧ PyStr.contains nul p = false.
Proof.
  unfold path_isdir. intros [[Hne Hnul]%andb_prop _]%andb_prop.
  apply negb_true_iff in Hne, Hnul. split; [|done]. by apply String.eqb_neq.
Qed.

Lemma path_isdir_grow w w' p : dirs_grow w w' → path_isdir w p = true → path_isdir w' p = true.
Proof.
  intros (d & Hd & ->). unfold path_isdir. simpl.
  intros [-> [->|Hin%bool_decide_eq_true]%orb_prop]%andb_prop; [done|].
  rewrite bool_decide_true; [by rewrite orb_true_r|]. by apply Hd.
Qed.

Lemma mkdir_error_kind w p kind msg :
  mkdir_error w p = Some (OSError kind msg) →
  kind = FileExistsError → p ≠ "" ∧ PyStr.contains nul p = false.
Proof.
  unfold mkdir_error, entry_error. intros Herr ->.
  destruct (String.eqb_spec p "") as [->|Hne]; [done|].
  destruct (PyStr.contains nul p); [done|]. done.
Qed.

Lemma mkdir_error_not_request w p e :
  mkdir_error w p = Some e → is_RequestException e = false.
Proof.
  unfold mkdir_error, entry_error. intros Herr.
  repeat case_match; by simplify_eq.
Qed.

Lemma open_error_not_request w p e :
  open_error w p = Some e → is_RequestException e = false.
Proof.
  unfold open_error, entry_error. intros Herr.
  repeat case_match; by simplify_eq.
Qed.

(** [open] looks at the file system only. *)
Lemma open_error_fs w w' p :
  fs_dirs w' = fs_dirs w → fs_files w' = fs_files w →
  fs_refuses w' = fs_refuses w → fs_strerror w' = fs_strerror w →
  open_error w' p = open_error w p.
Proof.
  intros Hd Hf Hr Hs. unfold open_error, entry_error, path_isdir, path_isfile.
  by rewrite Hd, Hf, Hr, Hs.
Qed.

(** The name is a directory when [mkdir_exist_ok] returns; it is a sound
    name when FileExistsError is raised. *)
Lemma mkdir_exist_ok_isdir name w :
  match (mkdir_exist_ok name w).1 with
  | Return _ => path_isdir (mkdir_exist_ok name w).2 name = true
  | Raise (OSError FileExistsError _) => PyStr.contains nul name = false
  | Raise e => is_RequestException e = false
  end.
Proof.
  unfold mkdir_exist_ok, os_mkdir.
  destruct (mkdir_error w name) as [e|] eqn:Herr.
  - destruct (is_OSError e && path_isdir w name) eqn:Hswallow; simpl.
    + by apply andb_prop in Hswallow as [_ ?].
    + pose proof (mkdir_error_not_request _ _ _ Herr) as Hreq.
      destruct e as [| | | |kind msg|]; try done.
      destruct kind; try done.
      by eapply mkdir_error_kind.
  - simpl. unfold mkdir_error in Herr.
    destruct (String.eqb name "") eqn:Hne; [done|].
    destruct (PyStr.contains nul name) eqn:Hnul; [done|].
    unfold path_isdir. simpl. rewrite Hne, Hnul. simpl.
    rewrite bool_decide_true; [by rewrite orb_true_r|].
    by apply elem_of_union_l, elem_of_singleton.
Qed.

Lemma makedirs_go_isdir fuel name w :
  match (makedirs_go fuel name w).1 with
  | Return _ => path_isdir (makedirs_go fuel name w).2 name = true
  | Raise (OSError FileExistsError _) => PyStr.contains nul name = false
  | Raise e => is_RequestException e = false
  end.
Proof.
  revert name w. induction fuel as [|fuel IH]; intros name w; cbn [makedirs_go].
  - apply mkdir_exist_ok_isdir.
  - pose proof (makedirs_dot_name name) as Hdot.
    destruct (OsPath.split name) as [head0 tail0].
    destruct (if String.eqb tail0 "" then OsPath.split head0 else (head0, tail0))
      as [head tail].
    destruct (negb (String.eqb head "") && negb (String.eqb tail "")
              && negb (path_exists w head)); [|apply mkdir_exist_ok_isdir].
    pose proof (IH head w) as Hhead.
    assert (Hnext : ∀ w', PyStr.contains nul head = false →
      match (if String.eqb tail "."
             then (Return (), set_dirs ({[dir_name name]} ∪ fs_dirs w') w')
             else mkdir_exist_ok name w').1 with
      | Return _ =>
          path_isdir (if String.eqb tail "."
                      then (Return (), set_dirs ({[dir_name name]} ∪ fs_dirs w') w')
                      else mkdir_exist_ok name w').2 name = true
      | Raise (OSError FileExistsError _) => PyStr.contains nul name = false
      | Raise e => is_RequestException e = false
      end).
    { intros w' Hnul. destruct (String.eqb_spec tail ".") as [->|_];
        [|apply mkdir_exist_ok_isdir].
      destruct (Hdot head eq_refl Hnul) as [Hne Hnul'].
      apply String.eqb_neq in Hne. unfold path_isdir. simpl.
      rewrite Hne, Hnul'. simpl. rewrite bool_decide_true; [by rewrite orb_true_r|].
      by apply elem_of_union_l, elem_of_singleton. }
    destruct (makedirs_go fuel head w) as [[[]|e] w']; simpl in Hhead.
    + apply Hnext. by apply path_isdir_no_nul in Hhead as [_ ?].
    + destruct e as [| | | |kind msg|]; try done.
      destruct kind; try done. by apply Hnext.
Qed.

(** [os.makedirs] returns: the name is a directory from then on. *)
Lemma os_makedirs_isdir name w :
  (os_makedirs name w).1 = Return () → path_isdir (os_makedirs name w).2 name = true.
Proof.
  intros Hret. unfold os_makedirs in *.
  pose proof (makedirs_go_isdir (String.length name) name (emit (EvMakedirs name) w)) as H.
  by rewrite Hret in H.
Qed.

(** [os.makedirs] raises no RequestException. *)
Lemma os_makedirs_not_request name w e :
  (os_makedirs name w).1 = Raise e → is_RequestException e = false.
Proof.
  intros Hret. unfold os_makedirs in *.
  pose proof (makedirs_go_isdir (String.length name) name (emit (EvMakedirs name) w)) as H.
  rewrite Hret in H. destruct e as [| | | |kind msg|]; try done.
Qed.

(** The empty name is refused, before anything else happens. *)
Lemma os_makedirs_empty w :
  os_makedirs "" w
  = (Raise (OSError FileNotFoundError (fs_strerror w FileNotFoundError "")),
     emit (EvMakedirs "") w).
Proof. reflexivity. Qed.

(** What has been logged plays no part in [os.makedirs]. *)
Lemma makedirs_go_emit fuel name e w :
  makedirs_go fuel name (emit e w)
  = ((makedirs_go fuel name w).1, emit e (makedirs_go fuel name w).2).
Proof.
  assert (Hmk : ∀ name w, mkdir_exist_ok name (emit e w)
            = ((mkdir_exist_ok name w).1, emit e (mkdir_exist_ok name w).2)).
  { intros n v. unfold mkdir_exist_ok, os_mkdir.
    change (mkdir_error (emit e v) n) with (mkdir_error v n).
    destruct (mkdir_error v n) as [err|]; [|done].
    change (path_isdir (emit e v) n) with (path_isdir v n).
    by destruct (is_OSError err && path_isdir v n). }
  revert name w. induction fuel as [|fuel IH]; intros name w; cbn [makedirs_go].
  - apply Hmk.
  - destruct (OsPath.split name) as [head0 tail0].
    destruct (if String.eqb tail0 "" then OsPath.split head0 else (head0, tail0))
      as [head tail].
    change (path_exists (emit e w) head) with (path_exists w head).
    destruct (negb (String.eqb head "") && negb (String.eqb tail "")
              && negb (path_exists w head)); [|apply Hmk].
    rewrite IH. destruct (makedirs_go fuel head w) as [[[]|err] w']; cbn [fst snd].
    + destruct (String.eqb tail "."); [done|apply Hmk].
    + destruct err as [| | | |kind msg|]; try done.
      destruct kind; try done.
      destruct (String.eqb tail "."); [done|apply Hmk].
Qed.

(** *** The fuel of [makedirs_go]

    Each recursive call of [os.makedirs] is on a shorter name, so the length
    of the name is fuel enough: more of it changes nothing. *)

Lemma length_take_drop n s :
  (String.length (PyStr.take n s) + String.length (PyStr.drop n s))%nat = String.length s.
Proof.
  revert s. induction n as [|n IH]; intros [|a s]; simpl; try done.
  by rewrite IH.
Qed.

Lemma length_lstrip P s : (String.length (PyStr.lstrip P s) ≤ String.length s)%nat.
Proof.
  induction s as [|a s IH]; simpl; [done|].
  destruct (P a); simpl; lia.
Qed.

Lemma length_rev_app s t :
  String.length (String.rev_app s t) = (String.length s + String.length t)%nat.
Proof.
  revert t. induction s as [|a s IH]; intros t; simpl; [done|].
  rewrite IH. simpl. lia.
Qed.

Lemma length_rev s : String.length (String.rev s) = String.length s.
Proof. unfold String.rev. rewrite length_rev_app. simpl. lia. Qed.

Lemma length_rstrip_sep s : (String.length (OsPath.rstrip_sep s) ≤ String.length s)%nat.
Proof.
  unfold OsPath.rstrip_sep. rewrite length_rev.
  etrans; [apply length_lstrip|]. by rewrite length_rev.
Qed.

Lemma split_head_length p :
  (String.length (OsPath.split p).1 + String.length (OsPath.split p).2
   ≤ String.length p)%nat.
Proof.
  unfold OsPath.split. cbv zeta. cbn [fst snd].
  set (i := match PyStr.rfind "/" p with Some i => S i | None => 0%nat end).
  pose proof (length_take_drop i p) as Hlen.
  pose proof (length_rstrip_sep (PyStr.take i p)) as Hstrip.
  destruct (negb (String.eqb (PyStr.take i p) "")
            && negb (PyStr.forallb OsPath.is_sep (PyStr.take i p))); lia.
Qed.

(** The name [os.makedirs] recurses on is shorter than the name it got. *)
Lemma makedirs_head_shorter name head tail :
  (let '(head0, tail0) := OsPath.split name in
   if String.eqb tail0 "" then OsPath.split head0 else (head0, tail0)) = (head, tail) →
  tail ≠ "" →
  (String.length head < String.length name)%nat.
Proof.
  intros Hsplit Htail.
  pose proof (split_head_length name) as Hname.
  destruct (OsPath.split name) as [head0 tail0]. cbn [fst snd] in Hname.
  destruct (String.eqb tail0 "").
  - pose proof (split_head_length head0) as Hhead. rewrite Hsplit in Hhead.
    cbn [fst snd] in Hhead. destruct tail; [done|]. simpl in Hhead. lia.
  - injection Hsplit as -> ->. destruct tail; [done|]. simpl in Hname. lia.
Qed.

Lemma makedirs_go_fuel n m name w :
  (String.length name ≤ n)%nat → (String.length name ≤ m)%nat →
  makedirs_go n name w = makedirs_go m name w.
Proof.
  revert m name w. induction n as [|n IH]; intros m name w Hn Hm.
  - destruct name; [|simpl in Hn; lia]. by destruct m.
  - destruct m as [|m]; [destruct name; [done|simpl in Hm; lia]|].
    cbn [makedirs_go].
    pose proof (makedirs_head_shorter name) as Hshort.
    destruct (OsPath.split name) as [head0 tail0].
    destruct (if String.eqb tail0 "" then OsPath.split head0 else (head0, tail0))
      as [head tail].
    destruct (String.eqb_spec tail "") as [->|Htail].
    { by rewrite andb_false_r. }
    specialize (Hshort head tail eq_refl Htail).
    by rewrite (IH m head w) by lia.
Qed.

(** [os.makedirs] is [makedirs_go] with any fuel from the length of the name
    on. *)
Lemma os_makedirs_fuel fuel name w :
  (String.length name ≤ fuel)%nat →
  os_makedirs name w = makedirs_go fuel name (emit (EvMakedirs name) w).
Proof. intros Hfuel. unfold os_makedirs. by apply makedirs_go_fuel. Qed.

(** ** The fetcher *)

Lemma http_error_msg_empty r :
  String.eqb (http_error_msg r) "" = negb (error_status r).
Proof.
  unfold http_error_msg, error_status.
  destruct (400 <=? status_code r)%Z eqn:H4, (status_code r <? 500)%Z eqn:H5,
    (500 <=? status_code r)%Z eqn:H6, (status_code r <? 600)%Z eqn:H7; simpl;
    try (apply String.eqb_neq; by intros [_ [=]]%app_empty_inv);
    try reflexivity; lia.
Qed.

Lemma success_not_error r : success_status r = true → error_status r = false.
Proof. unfold success_status, error_status. lia. Qed.

Lemma trace_emits events w : trace (emits events w) = (trace w ++ events)%list.
Proof.
  revert w. induction events as [|e events IH]; intros w; simpl.
  - by rewrite app_nil_r.
  - rewrite IH. simpl. by rewrite <- app_assoc.
Qed.

Lemma emits_frame events w :
  environ (emits events w) = environ w
  ∧ fs_dirs (emits events w) = fs_dirs w
  ∧ fs_files (emits events w) = fs_files w
  ∧ net_script (emits events w) = net_script w.
Proof.
  revert w. induction events as [|e events IH]; intros w; simpl; [done|].
  destruct (IH (emit e w)) as (-> & -> & -> & ->). done.
Qed.

Section Fetcher.
Context {unicode : PyStr.UnicodeCase}.
Variables design_id api_key output_dir format : string.
Variable w : World.

(** What [requests.post] gives does not depend on the directories made. *)
Lemma post_result_makedirs call :
  post_result (os_makedirs output_dir w).2 call = post_result w call.
Proof. by destruct (os_makedirs_grow output_dir w) as (d & _ & ->). Qed.

(** A run of the fetcher: [os.makedirs], then the table. *)
Lemma download_canva_design_run :
  download_canva_design design_id api_key output_dir format w
  = match (os_makedirs output_dir w).1 with
    | Return _ =>
        fetch_table design_id api_key output_dir format (os_makedirs output_dir w).2
    | Raise e => (Raise e, (os_makedirs output_dir w).2)
    end.
Proof.
  unfold download_canva_design, fetch_table. unfold mbind at 1. unfold M_bind at 1.
  destruct (os_makedirs output_dir w) as [[[]|e] w1]; [|done]. cbn [fst snd].
  unfold export_request, output_path. run.
  unfold requests_post. cbn [fst snd req_url req_json req_headers].
  match goal with
  | |- context [post_result (emit (EvRequest ?c) (emit ?l w1)) ?c] =>
      change (post_result (emit (EvRequest c) (emit l w1)) c) with (post_result w1 c);
      destruct (post_result w1 c) as [r|e]; destruct (net_refuses w1 c)
  end.
  all: try (by destruct (is_RequestException e), (exn_response e)).
  all: unfold raise_for_status; rewrite http_error_msg_empty;
    destruct (error_status r); simpl; [reflexivity|].
  all: unfold open_wb; cbn [fst snd];
    match goal with
    | |- context [open_error (emit ?ev ?v) ?p] =>
        rewrite (open_error_fs w1 (emit ev v) p) by done;
        destruct (open_error w1 p) as [e0|] eqn:Hopen;
        [by rewrite (open_error_not_request _ _ _ Hopen)|]
    end.
  all: unfold file_write; simpl;
    match goal with
    | |- context [fs_short_write ?v ?p ?d] => destruct (fs_short_write v p d)
    end; simpl; by rewrite lookup_insert_eq, insert_insert_eq.
Qed.

(** The table, case by case: what it adds to the trace, what it leaves of
    the files, and how its result tells the cases apart. *)
Lemma fetch_table_spec w1 :
  let call := export_request design_id api_key format in
  let file := output_path design_id output_dir format in
  let res := fetch_table design_id api_key output_dir format w1 in
  ∃ later,
    trace res.2
      = (trace w1
         ++ [EvLog INFO ("Requesting design " +:+ design_id +:+ " from Canva API...");
             EvRequest call] ++ later)%list
    ∧ omap request_of later = []
    ∧ environ res.2 = environ w1
    ∧ fs_dirs res.2 = fs_dirs w1
    ∧ (∀ p, p ≠ file → fs_files res.2 !! p = fs_files w1 !! p)
    ∧ match res.1 with
      | Return None =>
          fs_files res.2 = fs_files w1
          ∧ ∃ e, later = failure_lines e
                 ∧ is_RequestException e = true
                 ∧ (post_result w1 call = Raise e
                    ∨ ∃ r, post_result w1 call = Return r
                           ∧ error_status r = true
                           ∧ e = RequestException (http_error_msg r) (Some r))
      | Return (Some path) =>
          path = file
          ∧ ∃ r, post_result w1 call = Return r
                 ∧ error_status r = false
                 ∧ open_error w1 file = None
                 ∧ fs_short_write w1 file (content r) = None
                 ∧ fs_files res.2 = <[file := content r]> (fs_files w1)
      | Raise e => is_RequestException e = false
      end.
Proof.
  intros call file res. subst res. unfold fetch_table. fold call file.
  assert (Hw2 : ∃ script,
    (requests_post (req_url call) (req_json call) (req_headers call)
       (emit (EvLog INFO ("Requesting design " +:+ design_id
                          +:+ " from Canva API...")) w1)).2
    = set_script script
        (emit (EvRequest call)
           (emit (EvLog INFO ("Requesting design " +:+ design_id
                              +:+ " from Canva API...")) w1))).
  { unfold requests_post. cbn [snd].
    change {| req_method := "POST"; req_url := req_url call;
              req_json := req_json call; req_headers := req_headers call |} with call.
    destruct (net_refuses _ call); [|by eexists].
    exists (net_script w1). by destruct w1. }
  destruct Hw2 as (script & ->).
  assert (Hhandled : ∀ e : Exn,
    ∃ later,
      trace (emits (failure_lines e)
               (set_script script
                  (emit (EvRequest call)
                     (emit (EvLog INFO ("Requesting design " +:+ design_id
                                        +:+ " from Canva API...")) w1))))
        = (trace w1
           ++ [EvLog INFO ("Requesting design " +:+ design_id +:+ " from Canva API...");
               EvRequest call] ++ later)%list
      ∧ later = failure_lines e ∧ omap request_of later = []).
  { intros e. exists (failure_lines e). rewrite trace_emits. simpl.
    split; [by rewrite <- !app_assoc|]. split; [done|].
    unfold failure_lines. by destruct (exn_response e). }
  assert (Hemits : ∀ (e : Exn) v,
    environ (emits (failure_lines e) v) = environ v
    ∧ fs_dirs (emits (failure_lines e) v) = fs_dirs v
    ∧ fs_files (emits (failure_lines e) v) = fs_files v).
  { intros e v. by destruct (emits_frame (failure_lines e) v) as (? & ? & ? & _). }
  destruct (post_result w1 call) as [r|e] eqn:Hpost.
  - destruct (error_status r) eqn:Herr.
    + destruct (Hhandled (RequestException (http_error_msg r) (Some r)))
        as (later & Htrace & -> & Hreq).
      destruct (Hemits (RequestException (http_error_msg r) (Some r))
                  (set_script script
                     (emit (EvRequest call)
                        (emit (EvLog INFO ("Requesting design " +:+ design_id
                                           +:+ " from Canva API...")) w1))))
        as (Henv & Hdirs & Hfiles).
      eexists. cbn [fst snd]. split; [exact Htrace|]. split; [exact Hreq|].
      rewrite Henv, Hdirs, Hfiles. split; [done|]. split; [done|]. split; [done|].
      split; [done|]. eexists. split; [done|]. split; [done|]. right. eauto.
    + destruct (open_error w1 file) as [e|] eqn:Hopen.
      * exists [EvOpen file "wb"]. cbn [fst snd]. split; [simpl; by rewrite <- !app_assoc|].
        split; [done|]. split; [done|]. split; [done|]. split; [done|].
        by eapply open_error_not_request.
      * destruct (fs_short_write w1 file (content r)) as [n|] eqn:Hwrite.
        -- exists [EvOpen file "wb"; EvWrite file (content r)]. cbn [fst snd].
           split; [simpl; by rewrite <- !app_assoc|].
           split; [done|]. split; [done|]. split; [done|]. split; [|done].
           intros p Hp. simpl. by rewrite lookup_insert_ne.
        -- exists [EvOpen file "wb"; EvWrite file (content r);
                   EvLog INFO ("Design downloaded successfully: " +:+ file)].
           cbn [fst snd].
           split; [simpl; by rewrite <- !app_assoc|].
           split; [done|]. split; [done|]. split; [done|]. split.
           { intros p Hp. simpl. by rewrite lookup_insert_ne. }
           split; [done|]. exists r. by simpl.
  - destruct (is_RequestException e) eqn:Hreq.
    + destruct (Hhandled e) as (later & Htrace & -> & Hreqs).
      destruct (Hemits e
                  (set_script script
                     (emit (EvRequest call)
                        (emit (EvLog INFO ("Requesting design " +:+ design_id
                                           +:+ " from Canva API...")) w1))))
        as (Henv & Hdirs & Hfiles).
      eexists. cbn [fst snd]. split; [exact Htrace|]. split; [exact Hreqs|].
      rewrite Henv, Hdirs, Hfiles. split; [done|]. split; [done|]. split; [done|].
      split; [done|]. eexists. split; [done|]. split; [done|]. by left.
    + exists []. cbn [fst snd]. split; [simpl; by rewrite <- !app_assoc|]. done.
Qed.

End Fetcher.

Section FetcherRuns.
Context {unicode : PyStr.UnicodeCase}.
Variables design_id api_key output_dir format : string.
Variable w : World.

Let result := download_canva_design design_id api_key output_dir format w.
Let made := os_makedirs output_dir w.
Let call := export_request design_id api_key format.
Let file := output_path design_id output_dir format.

(** [os.makedirs] raises: the exception leaves the fetcher at once. *)
Lemma download_makedirs_raises e :
  made.1 = Raise e →
  result = (Raise e, made.2)
  ∧ trace made.2 = (trace w ++ [EvMakedirs output_dir])%list
  ∧ fs_files made.2 = fs_files w.
Proof.
  intros Hmade. subst result made. rewrite download_canva_design_run, Hmade.
  split; [done|].
  by destruct (os_makedirs_grow output_dir w) as (d & _ & ->).
Qed.

(** Every case of a run whose directory was made. *)
Lemma download_made :
  made.1 = Return () →
  ∃ later,
    trace result.2
      = (trace w ++ request_events design_id api_key output_dir format ++ later)%list
    ∧ omap request_of later = []
    ∧ environ result.2 = environ w
    ∧ fs_dirs result.2 = fs_dirs made.2
    ∧ (∀ p, p ≠ file → fs_files result.2 !! p = fs_files w !! p)
    ∧ match result.1 with
      | Return None =>
          fs_files result.2 = fs_files w
          ∧ ∃ e, later = failure_lines e
                 ∧ is_RequestException e = true
                 ∧ (post_result w call = Raise e
                    ∨ ∃ r, post_result w call = Return r
                           ∧ error_status r = true
                           ∧ e = RequestException (http_error_msg r) (Some r))
      | Return (Some path) =>
          path = file
          ∧ ∃ r, post_result w call = Return r
                 ∧ error_status r = false
                 ∧ open_error made.2 file = None
                 ∧ fs_short_write w file (content r) = None
                 ∧ fs_files result.2 = <[file := content r]> (fs_files w)
      | Raise e => is_RequestException e = false
      end.
Proof.
  intros Hmade. subst result made call file.
  rewrite download_canva_design_run, Hmade.
  destruct (fetch_table_spec design_id api_key output_dir format
              (os_makedirs output_dir w).2)
    as (later & Htrace & Hreq & Henv & Hdirs & Hothers & Hres).
  rewrite post_result_makedirs in Hres.
  destruct (os_makedirs_grow output_dir w) as (d & _ & Hw1).
  exists later. rewrite Htrace, Henv, Hdirs. rewrite Hw1 in Hothers, Hres |- *.
  split; [simpl; by rewrite <- !app_assoc|]. done.
Qed.

(** The answer is accepted and so is the file: the body is written. *)
Lemma download_written r :
  made.1 = Return () →
  post_result w call = Return r →
  error_status r = false →
  open_error made.2 file = None →
  fs_short_write w file (content r) = None →
  result.1 = Return (Some file)
  ∧ fs_files result.2 = <[file := content r]> (fs_files w).
Proof.
  intros Hmade Hpost Herr Hopen Hwrite. subst result made call file.
  rewrite download_canva_design_run, Hmade. unfold fetch_table.
  rewrite post_result_makedirs, Hpost, Herr, Hopen.
  destruct (os_makedirs_grow output_dir w) as (d & _ & ->).
  cbn [fs_short_write set_dirs emit]. by rewrite Hwrite.
Qed.

(** The request fails: the handler returns [None], no file is touched. *)
Lemma download_handled :
  made.1 = Return () →
  request_fails w call = true →
  result.1 = Return None ∧ fs_files result.2 = fs_files w.
Proof.
  intros Hmade Hfails. subst result made call file.
  rewrite download_canva_design_run, Hmade. unfold fetch_table, request_fails in *.
  rewrite post_result_makedirs.
  destruct (os_makedirs_grow output_dir w) as (d & _ & ->).
  destruct (post_result w _) as [r|e]; rewrite Hfails; cbn [fst snd].
  all: split; [done|].
  all: match goal with
       | |- fs_files (emits ?l ?v) = _ =>
           destruct (emits_frame l v) as (_ & _ & -> & _)
       end.
  all: unfold requests_post; cbn [snd]; by destruct (net_refuses _ _).
Qed.

End FetcherRuns.
(** ** Claims about the extractor *)

Lemma startswith_slash_filename design_id ext :
  PyStr.startswith "/" (design_id +:+ "." +:+ ext) = PyStr.startswith "/" design_id.
Proof. by destruct design_id. Qed.

Section ExtractorClaims.
Context {checks : UrllibParse.NetlocChecks}.
Import UrllibParse.

Lemma marker_strategy_followed p pre T post :
  PyStr.split "/" p = (pre ++ "design" :: T :: post)%list →
  "design" ∉ pre →
  marker_strategy p = Some T.
Proof.
  intros Hsplit Hpre. unfold marker_strategy. rewrite Hsplit.
  rewrite (list_index_first _ _ _ Hpre).
  rewrite lookup_app_r by lia. by replace (S (length pre) - length pre)%nat with 1%nat by lia.
Qed.

Lemma marker_strategy_last p pre :
  PyStr.split "/" p = (pre ++ ["design"])%list →
  "design" ∉ pre →
  marker_strategy p = None.
Proof.
  intros Hsplit Hpre. unfold marker_strategy. rewrite Hsplit.
  rewrite (list_index_first _ _ _ Hpre).
  apply lookup_ge_None_2. rewrite length_app. simpl. lia.
Qed.

Lemma marker_strategy_absent p :
  "design" ∉ PyStr.split "/" p → marker_strategy p = None.
Proof. intros Hnin. unfold marker_strategy. by rewrite list_index_not_elem_of. Qed.

(** C2. When the path of the URL, split at '/', holds the segment
    "design" (its first occurrence) followed by a segment [T], the
    extractor returns exactly [T] and logs the extraction; the query string
    plays no part: every URL with the same path gives the same answer. *)
Theorem extract_design_id_marker url w r pre T post :
  urlparse url = Return r →
  PyStr.split "/" (path r) = (pre ++ "design" :: T :: post)%list →
  "design" ∉ pre →
  extract_design_id url w
    = (Return (Some T), emit (EvLog INFO ("Extracted design ID: " +:+ T)) w)
  ∧ ∀ url' r', urlparse url' = Return r' → path r' = path r →
      (extract_design_id url' w).1 = Return (Some T).
Proof.
  intros Hparse Hsplit Hpre.
  pose proof (marker_strategy_followed _ _ _ _ Hsplit Hpre) as Hm. split.
  - by rewrite extract_design_id_run, Hparse, Hm.
  - intros url' r' Hparse' Hpath.
    by rewrite extract_design_id_run, Hparse', Hpath, Hm.
Qed.

(** C3. When the path has no "design" segment, or has it only as its last
    segment, and [parse_qs] finds the parameter "utm_content" in the query
    string, the extractor returns the first value of that parameter. *)
Theorem extract_design_id_query url w r v vs :
  urlparse url = Return r →
  ("design" ∉ PyStr.split "/" (path r)
   ∨ ∃ pre, PyStr.split "/" (path r) = (pre ++ ["design"])%list ∧ "design" ∉ pre) →
  parse_qs (query r) !! "utm_content" = Some (v :: vs) →
  extract_design_id url w
    = (Return (Some v), emit (EvLog INFO ("Extracted design ID from query: " +:+ v)) w).
Proof.
  intros Hparse Hpath Hquery.
  assert (marker_strategy (path r) = None) as Hm.
  { destruct Hpath as [Hnin|(pre & Hsplit & Hpre)].
    - by apply marker_strategy_absent.
    - by eapply marker_strategy_last. }
  rewrite extract_design_id_run, Hparse, Hm.
  unfold query_strategy. by rewrite Hquery.
Qed.

(** C4. The extractor always returns: whatever the input string, the
    outcome is a value, never an exception, and the world changes by one
    log line only.  The value is [None] exactly when the URL does not parse
    or neither strategy yields an identifier. *)
Theorem extract_design_id_absent url w :
  ∃ res level msg,
    extract_design_id url w = (Return res, emit (EvLog level msg) w)
    ∧ (res = None ↔
       ∀ r, urlparse url = Return r →
            marker_strategy (path r) = None ∧ query_strategy (query r) = None).
Proof.
  rewrite extract_design_id_run.
  destruct (urlparse url) as [r|e] eqn:Hparse.
  - destruct (marker_strategy (path r)) as [id|] eqn:Hm.
    { eexists _, _, _. split; [done|]. split; [done|].
      intros Hall. destruct (Hall r eq_refl). congruence. }
    destruct (query_strategy (query r)) as [id|] eqn:Hq.
    { eexists _, _, _. split; [done|]. split; [done|].
      intros Hall. destruct (Hall r eq_refl). congruence. }
    eexists _, _, _. split; [done|]. split; [|done].
    intros _ r' [= <-]. done.
  - eexists _, _, _. split; [done|]. split; [|done]. by intros _ r' [=].
Qed.

End ExtractorClaims.

(** ** Claims about [main] *)

Section MainClaims.
Context {checks : UrllibParse.NetlocChecks} {unicode : PyStr.UnicodeCase}.
Import UrllibParse.


(** C6, amended. An identifier the extractor takes from the query string is
    never empty.  One taken from the path can be the empty string, and
    [main] then handles it like an absent result: it logs the failure and
    stops before the fetcher is called. *)
Theorem extract_design_id_empty_rejected url w r id w' :
  urlparse url = Return r →
  extract_design_id url w = (Return (Some id), w') →
  (marker_strategy (path r) = None → id ≠ "")
  ∧ (id = "" →
     marker_strategy (path r) = Some ""
     ∧ ∀ api_key args, args_url args = url →
         main_with_credential api_key args w
           = (Return (), emit (EvLog ERROR "Failed to extract design ID. Exiting.") w')).
Proof.
  intros Hparse Hrun. split.
  - intros Hm. rewrite extract_design_id_run, Hparse, Hm in Hrun.
    destruct (query_strategy (query r)) as [v|] eqn:Hq; [|done].
    injection Hrun as -> _. by eapply query_strategy_nonempty.
  - intros ->. split.
    + rewrite extract_design_id_run, Hparse in Hrun.
      destruct (marker_strategy (path r)) as [id|] eqn:Hm.
      * by injection Hrun as -> _.
      * destruct (query_strategy (query r)) as [v|] eqn:Hq; [|done].
        injection Hrun as -> _. by apply query_strategy_nonempty in Hq.
    + intros api_key args <-. unfold main_with_credential. run. by rewrite Hrun.
Qed.

End MainClaims.

(** ** Concrete runs of the extractor *)

Section ExtractorExamples.
#[local] Existing Instance ascii_case.

(** C2 at the URL of the specification. *)
Lemma extract_design_id_marker_witness :
  let url := "https://example.com/design/ABC123/view" in
  let r := {| UrllibParse.scheme := "https"; UrllibParse.netloc := "example.com";
              UrllibParse.path := "/design/ABC123/view"; UrllibParse.params := "";
              UrllibParse.query := ""; UrllibParse.fragment := "" |} in
  (UrllibParse.urlparse (checks := lenient_checks) url = Return r
   ∧ PyStr.split "/" (UrllibParse.path r) = ([""] ++ "design" :: "ABC123" :: ["view"])%list
   ∧ "design" ∉ [""])
  ∧ extract_design_id (checks := lenient_checks) url empty_world
      = (Return (Some "ABC123"),
         emit (EvLog INFO "Extracted design ID: ABC123") empty_world).
Proof.
  intros url r.
  assert (Hnin : "design" ∉ [""]) by (by intros [=]%list_elem_of_singleton).
  split; [split; [reflexivity|split; [reflexivity|exact Hnin]]|].
  exact (proj1 (extract_design_id_marker (checks := lenient_checks)
                  url empty_world r [""] "ABC123" ["view"] eq_refl eq_refl Hnin)).
Defined.

(** C3 at a URL with no marker and the parameter in its query string. *)
Lemma extract_design_id_query_witness :
  let url := "https://example.com/share?utm_content=XYZ789" in
  let r := {| UrllibParse.scheme := "https"; UrllibParse.netloc := "example.com";
              UrllibParse.path := "/share"; UrllibParse.params := "";
              UrllibParse.query := "utm_content=XYZ789"; UrllibParse.fragment := "" |} in
  (UrllibParse.urlparse (checks := lenient_checks) url = Return r
   ∧ ("design" ∉ PyStr.split "/" (UrllibParse.path r))
   ∧ UrllibParse.parse_qs (UrllibParse.query r) !! "utm_content" = Some ["XYZ789"])
  ∧ extract_design_id (checks := lenient_checks) url empty_world
      = (Return (Some "XYZ789"),
         emit (EvLog INFO "Extracted design ID from query: XYZ789") empty_world).
Proof.
  intros url r.
  assert (Hnin : "design" ∉ PyStr.split "/" (UrllibParse.path r)).
  { apply (bool_decide_unpack _). vm_compute. exact I. }
  assert (Hq : UrllibParse.parse_qs (UrllibParse.query r) !! "utm_content" = Some ["XYZ789"]).
  { vm_compute. reflexivity. }
  split; [split; [reflexivity|split; [exact Hnin|exact Hq]]|].
  exact (extract_design_id_query (checks := lenient_checks)
           url empty_world r "XYZ789" [] eq_refl (or_introl Hnin) Hq).
Defined.

(** C6 as stated fails: for a share link that ends in "design/" the
    extractor returns a result, and it is the empty string. *)
Lemma extract_design_id_empty_counterexample :
  extract_design_id (checks := lenient_checks) "https://www.canva.com/design/" empty_world
    = (Return (Some ""), emit (EvLog INFO "Extracted design ID: ") empty_world).
Proof. vm_compute. reflexivity. Qed.

(** C6, amended, at that link: [main] stops on the empty identifier. *)
Lemma extract_design_id_empty_rejected_witness :
  let url := "https://www.canva.com/design/" in
  let r := {| UrllibParse.scheme := "https"; UrllibParse.netloc := "www.canva.com";
              UrllibParse.path := "/design/"; UrllibParse.params := "";
              UrllibParse.query := ""; UrllibParse.fragment := "" |} in
  let w' := emit (EvLog INFO "Extracted design ID: ") empty_world in
  (UrllibParse.urlparse (checks := lenient_checks) url = Return r
   ∧ extract_design_id (checks := lenient_checks) url empty_world = (Return (Some ""), w'))
  ∧ ∀ api_key args, args_url args = url →
      main_with_credential (checks := lenient_checks) api_key args empty_world
        = (Return (), emit (EvLog ERROR "Failed to extract design ID. Exiting.") w').
Proof.
  intros url r w'.
  assert (Hrun : extract_design_id (checks := lenient_checks) url empty_world
                 = (Return (Some ""), w')) by (vm_compute; reflexivity).
  split; [split; [reflexivity|exact Hrun]|].
  exact (proj2 (proj2 (extract_design_id_empty_rejected (checks := lenient_checks)
                         url empty_world r "" w' eq_refl Hrun) eq_refl)).
Defined.

End ExtractorExamples.

(** ** Claims about the fetcher *)

Lemma output_path_relative {unicode : PyStr.UnicodeCase} design_id output_dir format :
  PyStr.startswith "/" design_id = false →
  output_path design_id output_dir format =
    output_dir +:+ join_separator output_dir
    +:+ design_id +:+ "." +:+ PyStr.lower format.
Proof.
  intros Hrel. unfold output_path, OsPath.join, join_separator.
  rewrite startswith_slash_filename, Hrel.
  by destruct (String.eqb output_dir "" || PyStr.endswith "/" output_dir).
Qed.

Lemma os_makedirs_nonempty name w : (os_makedirs name w).1 = Return () → name ≠ "".
Proof. intros Hmade ->. by rewrite os_makedirs_empty in Hmade. Qed.

Lemma path_isdir_dirs w w' p : fs_dirs w' = fs_dirs w → path_isdir w' p = path_isdir w p.
Proof. intros Hd. unfold path_isdir. by rewrite Hd. Qed.

Section FetcherClaims.
Context {unicode : PyStr.UnicodeCase}.
Variables design_id api_key output_dir format : string.
Variable w : World.

Let result := download_canva_design design_id api_key output_dir format w.
Let file := output_path design_id output_dir format.

(** The fetcher returns only when [os.makedirs] did. *)
Lemma download_returns_made v :
  result.1 = Return v → (os_makedirs output_dir w).1 = Return ().
Proof.
  intros Hres. destruct (os_makedirs output_dir w).1 as [[]|e] eqn:Hmade; [done|].
  destruct (download_makedirs_raises design_id api_key output_dir format w e Hmade)
    as (Hrun & _). subst result. by rewrite Hrun in Hres.
Qed.

(** C1, amended. When [os.makedirs] accepts the output directory,
    [requests.post] returns a response with a 2xx status and body [B], the
    identifier does not begin with '/', and [open] and [write] accept the
    file, the fetcher writes [B], byte for byte, to
    <output_dir>/<identifier>.<format in lower case> (the separator as
    [os.path.join] puts it: none when [output_dir] already ends with '/')
    and returns that path. *)
Theorem download_writes_payload r :
  let target := output_dir +:+ (if PyStr.endswith "/" output_dir then "" else "/")
                +:+ design_id +:+ "." +:+ PyStr.lower format in
  (os_makedirs output_dir w).1 = Return () →
  post_result w (export_request design_id api_key format) = Return r →
  success_status r = true →
  PyStr.startswith "/" design_id = false →
  open_error (os_makedirs output_dir w).2 target = None →
  fs_short_write w target (content r) = None →
  result.1 = Return (Some target)
  ∧ fs_files result.2 !! target = Some (content r).
Proof.
  intros target Hmade Hpost Hok%success_not_error Hrel Hopen Hwrite.
  assert (file = target) as Heq.
  { subst file target. rewrite output_path_relative by done. unfold join_separator.
    apply os_makedirs_nonempty, String.eqb_neq in Hmade. by rewrite Hmade. }
  rewrite <- Heq in *.
  destruct (download_written design_id api_key output_dir format w r)
    as (Hres & Hfiles); [done..|].
  subst result. rewrite Hres, Hfiles. split; [done|]. apply lookup_insert_eq.
Qed.

(** C5, amended. When [os.makedirs] accepts the output directory and the
    request fails ([requests.post] raises a RequestException, or returns a
    status from 400 to 599, which is what [raise_for_status] rejects), the
    fetcher returns [None] and the files are as they were.  And whenever the
    fetcher returns, it is all or nothing: with [None] no file has changed;
    with a path, that file holds the whole body of the response and no other
    file has changed. *)
Theorem download_all_or_nothing :
  ((os_makedirs output_dir w).1 = Return () →
   request_fails w (export_request design_id api_key format) = true →
   result.1 = Return None ∧ fs_files result.2 = fs_files w)
  ∧ (result.1 = Return None → fs_files result.2 = fs_files w)
  ∧ (∀ path, result.1 = Return (Some path) →
       ∃ r, post_result w (export_request design_id api_key format) = Return r
            ∧ fs_files result.2 = <[path := content r]> (fs_files w)).
Proof.
  split; [apply download_handled|].
  split.
  - intros Hres.
    destruct (download_made design_id api_key output_dir format w)
      as (later & _ & _ & _ & _ & _ & Hcase); [by eapply download_returns_made|].
    fold result in Hcase. rewrite Hres in Hcase. by destruct Hcase.
  - intros path Hres.
    destruct (download_made design_id api_key output_dir format w)
      as (later & _ & _ & _ & _ & _ & Hcase); [by eapply download_returns_made|].
    fold result in Hcase. rewrite Hres in Hcase.
    destruct Hcase as (-> & r & Hpost & _ & _ & _ & Hfiles). eauto.
Qed.

(** C8, amended. A run of the fetcher whose output directory [os.makedirs]
    accepts calls [requests.post] exactly once: on
    https://api.canva.com/v1/designs/<identifier>/export, with a JSON body
    that has "format" set to the format in upper case and "pages" set to
    "all", and with the headers Authorization: Bearer <api key> and
    Content-Type: application/json.  This is whatever the call ends with;
    what the library puts on the wire for it is its own matter. *)
Theorem download_one_post :
  (os_makedirs output_dir w).1 = Return () →
  ∃ events,
    trace result.2 = (trace w ++ events)%list
    ∧ omap request_of events =
        [ {| req_method := "POST";
             req_url := "https://api.canva.com/v1/designs/" +:+ design_id +:+ "/export";
             req_json := [("format", PyStr.upper format); ("pages", "all")];
             req_headers := [("Authorization", "Bearer " +:+ api_key);
                             ("Content-Type", "application/json")] |} ].
Proof.
  intros Hmade.
  destruct (download_made design_id api_key output_dir format w Hmade)
    as (later & Htrace & Hlater & _).
  eexists. split; [exact Htrace|].
  by rewrite omap_app, Hlater.
Qed.

(** C10. When [os.makedirs] accepts the output directory, the directory is
    there from then on, and the call of [os.makedirs] comes before that of
    [requests.post]: so the directory is there also after a run whose
    request fails and which writes no file. *)
Theorem download_makedirs_first :
  (os_makedirs output_dir w).1 = Return () →
  path_isdir (os_makedirs output_dir w).2 output_dir = true
  ∧ path_isdir result.2 output_dir = true
  ∧ fs_dirs w ⊆ fs_dirs result.2
  ∧ (∃ before r after,
       trace result.2 = (trace w ++ before ++ EvRequest r :: after)%list
       ∧ EvMakedirs output_dir ∈ before
       ∧ omap request_of before = [])
  ∧ (result.1 = Return None → fs_files result.2 = fs_files w).
Proof.
  intros Hmade.
  destruct (download_made design_id api_key output_dir format w Hmade)
    as (later & Htrace & _ & _ & Hdirs & _ & Hcase).
  pose proof (os_makedirs_isdir output_dir w Hmade) as Hisdir.
  split; [done|]. split; [by rewrite (path_isdir_dirs _ _ _ Hdirs)|]. split.
  { fold result in Hdirs. rewrite Hdirs.
    by destruct (os_makedirs_grow output_dir w) as (d & Hd & ->). }
  split.
  - exists [EvMakedirs output_dir;
            EvLog INFO ("Requesting design " +:+ design_id +:+ " from Canva API...")].
    eexists _, later. split; [exact Htrace|]. split; [|done]. apply list_elem_of_here.
  - intros Hres. fold result in Hcase. rewrite Hres in Hcase. by destruct Hcase.
Qed.

End FetcherClaims.

(** C7. Two runs in sequence for the same identifier, directory and format,
    the first receiving the body [B1] and the second [B2], each returning
    the path of the file: afterwards the file holds exactly [B2], and the
    files are what the second run alone would have left. *)
Theorem download_twice_overwrites {unicode : PyStr.UnicodeCase}
    design_id key1 key2 output_dir format w r1 r2 :
  let first := download_canva_design design_id key1 output_dir format w in
  let second := download_canva_design design_id key2 output_dir format first.2 in
  let file := output_path design_id output_dir format in
  post_result w (export_request design_id key1 format) = Return r1 →
  post_result first.2 (export_request design_id key2 format) = Return r2 →
  first.1 = Return (Some file) →
  second.1 = Return (Some file) →
  fs_files first.2 !! file = Some (content r1)
  ∧ fs_files second.2 !! file = Some (content r2)
  ∧ fs_files second.2 = <[file := content r2]> (fs_files w).
Proof.
  intros first second file Hpost1 Hpost2 Hres1 Hres2.
  destruct (download_made design_id key1 output_dir format w)
    as (later1 & _ & _ & _ & _ & _ & Hcase1); [by eapply download_returns_made|].
  destruct (download_made design_id key2 output_dir format first.2)
    as (later2 & _ & _ & _ & _ & _ & Hcase2); [by eapply download_returns_made|].
  fold first in Hcase1. fold second in Hcase2. rewrite Hres1 in Hcase1.
  rewrite Hres2 in Hcase2.
  destruct Hcase1 as (_ & r & Hr & _ & _ & _ & Hfiles1).
  destruct Hcase2 as (_ & r' & Hr' & _ & _ & _ & Hfiles2).
  fold file in Hfiles1, Hfiles2.
  assert (r = r1) as -> by congruence. assert (r' = r2) as -> by congruence.
  rewrite Hfiles2, Hfiles1, insert_insert_eq.
  split; [apply lookup_insert_eq|]. split; [apply lookup_insert_eq|done].
Qed.

(** ** Concrete runs of the fetcher *)

Section FetcherExamples.
#[local] Existing Instance ascii_case.

(** C1 as stated fails: for an identifier that begins with '/' the file is
    written outside the output directory, at the identifier's own path. *)
Lemma download_absolute_identifier_counterexample :
  let w := answering [Responds ok_response] in
  let result := download_canva_design "/x" "key" "out" "pdf" w in
  success_status ok_response = true
  ∧ result.1 = Return (Some "/x.pdf")
  ∧ fs_files result.2 !! "/x.pdf" = Some (content ok_response)
  ∧ fs_files result.2 !! "out//x.pdf" = None.
Proof. vm_compute. repeat split. Qed.

(** C1, amended, on a plain identifier and the format in capitals. *)
Lemma download_writes_payload_witness :
  let w := answering [Responds ok_response] in
  let result := download_canva_design "ABC123" "key" "canva_designs" "PDF" w in
  ((os_makedirs "canva_designs" w).1 = Return ()
   ∧ post_result w (export_request "ABC123" "key" "PDF") = Return ok_response
   ∧ success_status ok_response = true
   ∧ PyStr.startswith "/" "ABC123" = false
   ∧ open_error (os_makedirs "canva_designs" w).2 "canva_designs/ABC123.pdf" = None
   ∧ fs_short_write w "canva_designs/ABC123.pdf" (content ok_response) = None)
  ∧ result.1 = Return (Some "canva_designs/ABC123.pdf")
  ∧ fs_files result.2 !! "canva_designs/ABC123.pdf" = Some [Byte.x25; Byte.x50].
Proof.
  intros w result.
  assert (Hmade : (os_makedirs "canva_designs" w).1 = Return ())
    by (vm_compute; reflexivity).
  assert (Hopen : open_error (os_makedirs "canva_designs" w).2
                    "canva_designs/ABC123.pdf" = None)
    by (vm_compute; reflexivity).
  split.
  { split; [exact Hmade|]. split; [reflexivity|]. split; [reflexivity|].
    split; [reflexivity|]. split; [exact Hopen|reflexivity]. }
  exact (download_writes_payload "ABC123" "key" "canva_designs" "PDF" w ok_response
           Hmade eq_refl eq_refl eq_refl Hopen eq_refl).
Defined.

(** C5 as stated fails: a 300 answer is not a 2xx status, and the fetcher
    still writes the file and returns its path. *)
Lemma download_non_2xx_counterexample :
  let w := answering [Responds multiple_choices_response] in
  let result := download_canva_design "ABC123" "key" "canva_designs" "pdf" w in
  success_status multiple_choices_response = false
  ∧ result.1 = Return (Some "canva_designs/ABC123.pdf")
  ∧ fs_files w !! "canva_designs/ABC123.pdf" = None
  ∧ fs_files result.2 !! "canva_designs/ABC123.pdf"
      = Some (content multiple_choices_response).
Proof. vm_compute. repeat split. Qed.

(** C5, amended, on a 404 answer: nothing is returned, no file is there. *)
Lemma download_all_or_nothing_witness :
  let w := answering [Responds not_found_response] in
  let result := download_canva_design "ABC123" "key" "canva_designs" "pdf" w in
  ((os_makedirs "canva_designs" w).1 = Return ()
   ∧ request_fails w (export_request "ABC123" "key" "pdf") = true)
  ∧ result.1 = Return None
  ∧ fs_files result.2 = fs_files w.
Proof.
  intros w result.
  assert (Hmade : (os_makedirs "canva_designs" w).1 = Return ())
    by (vm_compute; reflexivity).
  assert (Hfails : request_fails w (export_request "ABC123" "key" "pdf") = true)
    by reflexivity.
  split; [split; [exact Hmade|exact Hfails]|].
  exact (proj1 (download_all_or_nothing "ABC123" "key" "canva_designs" "pdf" w)
           Hmade Hfails).
Defined.

(** C7 on two different bodies: the first run writes four bytes, the second
    two, and two are left. *)
Lemma download_twice_overwrites_witness :
  let w := answering [Responds created_response; Responds ok_response] in
  let first := download_canva_design "ABC123" "key" "canva_designs" "pdf" w in
  let second := download_canva_design "ABC123" "key" "canva_designs" "pdf" first.2 in
  (post_result w (export_request "ABC123" "key" "pdf") = Return created_response
   ∧ post_result first.2 (export_request "ABC123" "key" "pdf") = Return ok_response
   ∧ first.1 = Return (Some "canva_designs/ABC123.pdf")
   ∧ second.1 = Return (Some "canva_designs/ABC123.pdf"))
  ∧ fs_files first.2 !! "canva_designs/ABC123.pdf"
      = Some [Byte.x25; Byte.x50; Byte.x44; Byte.x46]
  ∧ fs_files second.2 !! "canva_designs/ABC123.pdf" = Some [Byte.x25; Byte.x50].
Proof.
  intros w first second.
  assert (Hpost2 : post_result first.2 (export_request "ABC123" "key" "pdf")
                   = Return ok_response) by (vm_compute; reflexivity).
  assert (Hres1 : first.1 = Return (Some "canva_designs/ABC123.pdf"))
    by (vm_compute; reflexivity).
  assert (Hres2 : second.1 = Return (Some "canva_designs/ABC123.pdf"))
    by (vm_compute; reflexivity).
  split; [split; [reflexivity|split; [exact Hpost2|split; [exact Hres1|exact Hres2]]]|].
  destruct (download_twice_overwrites "ABC123" "key" "key" "canva_designs" "pdf" w
              created_response ok_response eq_refl Hpost2 Hres1 Hres2)
    as (Hfirst & Hsecond & _).
  split; [exact Hfirst|exact Hsecond].
Defined.

(** C8 as stated fails: with the empty output directory [os.makedirs]
    raises FileNotFoundError, before the request is built into a call: the
    fetcher makes no call of [requests.post] at all. *)
Lemma download_no_post_counterexample :
  let w := answering [Responds ok_response] in
  let result := download_canva_design "ABC123" "key" "" "pdf" w in
  result.1 = Raise (OSError FileNotFoundError "[Errno 2] No such file or directory: ''")
  ∧ omap request_of (trace result.2) = []
  ∧ net_script result.2 = [Responds ok_response].
Proof. vm_compute. repeat split. Qed.

(** C8, amended, on the format in small letters: the one call carries
    "PDF". *)
Lemma download_one_post_witness :
  let w := answering [Responds ok_response] in
  let result := download_canva_design "ABC123" "key" "canva_designs" "pdf" w in
  (os_makedirs "canva_designs" w).1 = Return ()
  ∧ ∃ events,
      trace result.2 = (trace w ++ events)%list
      ∧ omap request_of events =
          [ {| req_method := "POST";
               req_url := "https://api.canva.com/v1/designs/ABC123/export";
               req_json := [("format", "PDF"); ("pages", "all")];
               req_headers := [("Authorization", "Bearer key");
                               ("Content-Type", "application/json")] |} ].
Proof.
  intros w result.
  assert (Hmade : (os_makedirs "canva_designs" w).1 = Return ())
    by (vm_compute; reflexivity).
  split; [exact Hmade|].
  exact (download_one_post "ABC123" "key" "canva_designs" "pdf" w Hmade).
Defined.

(** C10 on a request that fails in transport: nothing is returned, no file
    is written, the directory is there. *)
Lemma download_makedirs_first_witness :
  let w := answering [Fails "Connection refused" None] in
  let result := download_canva_design "ABC123" "key" "canva_designs" "pdf" w in
  (os_makedirs "canva_designs" w).1 = Return ()
  ∧ path_isdir w "canva_designs" = false
  ∧ path_isdir result.2 "canva_designs" = true
  ∧ result.1 = Return None
  ∧ fs_files result.2 = fs_files w.
Proof.
  intros w result.
  assert (Hmade : (os_makedirs "canva_designs" w).1 = Return ())
    by (vm_compute; reflexivity).
  assert (Hres : result.1 = Return None) by (vm_compute; reflexivity).
  destruct (download_makedirs_first "ABC123" "key" "canva_designs" "pdf" w Hmade)
    as (_ & Hisdir & _ & _ & Hfiles).
  split; [exact Hmade|]. split; [reflexivity|]. split; [exact Hisdir|].
  split; [exact Hres|exact (Hfiles Hres)].
Defined.

(** A run whose request is rejected with 404: the directory is there, no file
    is, and the two error lines follow the request. *)
Example download_rejected_run :
  let w := answering [Responds not_found_response] in
  let result := download_canva_design "ABC123" "key" "canva_designs" "PNG" w in
  result.1 = Return None
  ∧ elements (fs_dirs result.2) = ["canva_designs"]
  ∧ fs_files result.2 = ∅
  ∧ trace result.2 =
      [EvMakedirs "canva_designs";
       EvLog INFO "Requesting design ABC123 from Canva API...";
       EvRequest {| req_method := "POST";
                    req_url := "https://api.canva.com/v1/designs/ABC123/export";
                    req_json := [("format", "PNG"); ("pages", "all")];
                    req_headers := [("Authorization", "Bearer key");
                                    ("Content-Type", "application/json")] |};
       EvLog ERROR "API request failed: 404 Client Error: Not Found for url: https://api.canva.com/v1/designs/ABC123/export";
       EvLog ERROR "Status code: 404"].
Proof. vm_compute. repeat split. Qed.

(** The empty output directory: [os.makedirs] raises FileNotFoundError, which
    leaves the fetcher before any request is made. *)
Example download_empty_output_dir_run :
  let w := answering [Responds ok_response] in
  let result := download_canva_design "ABC123" "key" "" "pdf" w in
  result.1 = Raise (OSError FileNotFoundError "[Errno 2] No such file or directory: ''")
  ∧ fs_files result.2 = ∅
  ∧ trace result.2 = [EvMakedirs ""].
Proof. vm_compute. repeat split. Qed.

(** An output directory under a name that is a regular file. *)
Example download_output_dir_is_file_run :
  let w := set_files {["out" := []]} (answering [Responds ok_response]) in
  let result := download_canva_design "ABC123" "key" "out" "pdf" w in
  result.1 = Raise (OSError FileExistsError "[Errno 17] File exists: 'out'")
  ∧ trace result.2 = [EvMakedirs "out"].
Proof. vm_compute. repeat split. Qed.

(** Parent directories are made too. *)
Example download_nested_output_dir_run :
  let w := answering [Responds ok_response] in
  let result := download_canva_design "ABC123" "key" "a/b/c" "pdf" w in
  result.1 = Return (Some "a/b/c/ABC123.pdf")
  ∧ elements (fs_dirs result.2) = elements ({["a"; "a/b"; "a/b/c"]} : gset string).
Proof. vm_compute. repeat split. Qed.

(** An identifier with a '/' inside, as the query string can give: [open]
    finds no directory to put the file in, and its FileNotFoundError leaves
    the fetcher, after the request. *)
Example download_identifier_with_separator_run :
  let w := answering [Responds ok_response] in
  let result := download_canva_design "a/b" "key" "out" "pdf" w in
  result.1 = Raise (OSError FileNotFoundError
                      "[Errno 2] No such file or directory: 'out/a/b.pdf'")
  ∧ fs_files result.2 = ∅
  ∧ omap request_of (trace result.2) = [export_request "a/b" "key" "pdf"]
  ∧ last (trace result.2) = Some (EvOpen "out/a/b.pdf" "wb").
Proof. vm_compute. repeat split. Qed.

(** A redirect loop: TooManyRedirects carries the last response, so the
    status line is logged for a status [raise_for_status] never saw. *)
Example download_too_many_redirects_run :
  let found := {| status_code := 302; reason := "Found";
                  resp_url := "https://api.canva.com/v1/designs/ABC123/export";
                  content := [] |} in
  let w := answering [Fails "Exceeded 30 redirects." (Some found)] in
  let result := download_canva_design "ABC123" "key" "out" "pdf" w in
  result.1 = Return None
  ∧ drop 3 (trace result.2)
    = [EvLog ERROR "API request failed: Exceeded 30 redirects.";
       EvLog ERROR "Status code: 302"].
Proof. vm_compute. repeat split. Qed.

(** A key the HTTP stack cannot put in a header.  With a line break in it,
    [requests] raises InvalidHeader, a RequestException whose text quotes
    the header: the fetcher logs it and returns [None], the answer unread.
    Outside Latin-1, the encoding of the header raises UnicodeEncodeError,
    which is no RequestException: it leaves the fetcher. *)
Example download_refused_key_run :
  let key := "k" +:+ String (ascii_of_nat 10) "ey" in
  let invalid :=
    RequestException
      "Invalid leading whitespace, reserved character(s), or return character(s) in header value: 'Bearer k\ney'"
      None in
  let unencodable :=
    UnicodeEncodeError
      "'latin-1' codec can't encode characters in position 7-10: ordinal not in range(256)" in
  let first :=
    download_canva_design "ABC123" key "out" "pdf"
      (refusing None (Some invalid) [Responds ok_response]) in
  let second :=
    download_canva_design "ABC123" "ключ" "out" "pdf"
      (refusing None (Some unencodable) [Responds ok_response]) in
  first.1 = Return None
  ∧ last (trace first.2)
    = Some (EvLog ERROR "API request failed: Invalid leading whitespace, reserved character(s), or return character(s) in header value: 'Bearer k\ney'")
  ∧ fs_files first.2 = ∅
  ∧ net_script first.2 = [Responds ok_response]
  ∧ second.1 = Raise unencodable
  ∧ fs_files second.2 = ∅.
Proof. vm_compute. repeat split. Qed.

(** A disk that fills up after the first byte: the OSError of the write
    leaves the fetcher, and the file holds that byte only. *)
Example download_short_write_run :
  let w := refusing (Some 1%nat) None [Responds ok_response] in
  let result := download_canva_design "ABC123" "key" "out" "pdf" w in
  (∃ msg, result.1 = Raise (OSError OtherOSError msg))
  ∧ fs_files result.2 !! "out/ABC123.pdf" = Some [Byte.x25].
Proof. vm_compute. split; [by eexists|done]. Qed.

End FetcherExamples.
(** * Further properties *)

(** ** Strings: searching and splitting across a concatenation *)

Lemma contains_find c s : PyStr.contains c s = false → PyStr.find c s = None.
Proof. unfold PyStr.contains. by destruct (PyStr.find c s). Qed.

Lemma find_app_absent c s t :
  PyStr.find c s = None →
  PyStr.find c (s +:+ t) = (λ i, String.length s + i)%nat <$> PyStr.find c t.
Proof.
  induction s as [|a s IH]; simpl.
  - intros _. change ("" +:+ t) with t. by destruct (PyStr.find c t).
  - destruct (Ascii.eqb a c); [done|].
    destruct (PyStr.find c s) eqn:Hs; [done|]. intros _.
    rewrite IH by done. by destruct (PyStr.find c t).
Qed.

Lemma contains_app_absent c s t :
  PyStr.contains c s = false →
  PyStr.contains c (s +:+ t) = PyStr.contains c t.
Proof.
  intros Hs%contains_find. unfold PyStr.contains.
  rewrite find_app_absent by done. by destruct (PyStr.find c t).
Qed.

Lemma remove_absent c s : PyStr.contains c s = false → PyStr.remove c s = s.
Proof.
  unfold PyStr.contains. induction s as [|a s IH]; simpl; [done|].
  destruct (Ascii.eqb a c); [done|].
  destruct (PyStr.find c s); [done|]. intros _. by rewrite IH.
Qed.

Lemma remove_app c s t : PyStr.remove c (s +:+ t) = PyStr.remove c s +:+ PyStr.remove c t.
Proof.
  induction s as [|a s IH]; simpl; [done|].
  destruct (Ascii.eqb a c); [done|]. simpl. by rewrite IH.
Qed.

Lemma split_app_absent sep s t :
  PyStr.contains sep s = false →
  PyStr.split sep (s +:+ String sep t) = s :: PyStr.split sep t.
Proof.
  unfold PyStr.contains. induction s as [|a s IH]; simpl.
  - by rewrite Ascii.eqb_refl.
  - destruct (Ascii.eqb a sep); [done|].
    destruct (PyStr.find sep s); [done|]. intros _. by rewrite IH.
Qed.

Lemma split_segments_clean sep s :
  Forall (λ seg, PyStr.contains sep seg = false) (PyStr.split sep s).
Proof.
  induction s as [|a s IH]; simpl.
  - by apply Forall_singleton.
  - destruct (Ascii.eqb a sep) eqn:Ha.
    + by apply Forall_cons.
    + destruct (PyStr.split sep s) as [|seg segs].
      { apply Forall_singleton. unfold PyStr.contains. simpl. by rewrite Ha. }
      apply Forall_cons in IH as [Hseg Hsegs]. apply Forall_cons. split; [|done].
      unfold PyStr.contains in *. simpl. rewrite Ha.
      by destruct (PyStr.find sep seg).
Qed.

Lemma plain_token_absent s c :
  plain_token s = true → c ∈ reserved_chars → PyStr.contains c s = false.
Proof.
  unfold plain_token. rewrite forallb_forall. intros Hall Hin.
  apply list_elem_of_In, Hall, negb_true_iff in Hin. done.
Qed.

Lemma find_app_present c s t i :
  PyStr.find c s = Some i → PyStr.find c (s +:+ t) = Some i.
Proof.
  revert i. induction s as [|a s IH]; intros i; [done|].
  change (String a s +:+ t) with (String a (s +:+ t)). simpl.
  destruct (Ascii.eqb a c); [done|].
  destruct (PyStr.find c s) as [j|]; [|done]. intros [= <-]. by rewrite (IH j).
Qed.

Lemma take_app_le n s t :
  (n ≤ String.length s)%nat → PyStr.take n (s +:+ t) = PyStr.take n s.
Proof.
  revert s. induction n as [|n IH]; intros [|a s] Hn; simpl in *; try done; try lia.
  change (String a s +:+ t) with (String a (s +:+ t)). simpl. rewrite IH; [done|lia].
Qed.

Lemma drop_app_le n s t :
  (n ≤ String.length s)%nat → PyStr.drop n (s +:+ t) = PyStr.drop n s +:+ t.
Proof.
  revert s. induction n as [|n IH]; intros [|a s] Hn; simpl in *; try done; try lia.
  change (String a s +:+ t) with (String a (s +:+ t)). simpl. rewrite IH; [done|lia].
Qed.

Lemma length_string_app s t :
  String.length (s +:+ t) = (String.length s + String.length t)%nat.
Proof.
  induction s as [|a s IH]; [done|].
  change (String a s +:+ t) with (String a (s +:+ t)). simpl. by rewrite IH.
Qed.

Lemma startswith_app p s t :
  PyStr.startswith p s = true → PyStr.startswith p (s +:+ t) = true.
Proof.
  revert s. induction p as [|a p IH]; intros [|b s]; simpl; try done.
  change (String b s +:+ t) with (String b (s +:+ t)). simpl.
  intros [-> Hp]%andb_true_iff. by rewrite IH.
Qed.

Lemma lstrip_app_keep P a s t :
  P a = false → PyStr.lstrip P (String a s +:+ t) = String a s +:+ t.
Proof.
  intros HP. change (String a s +:+ t) with (String a (s +:+ t)). simpl. by rewrite HP.
Qed.

Lemma take_app_exact s t : PyStr.take (String.length s) (s +:+ t) = s.
Proof.
  induction s as [|a s IH]; [by destruct t|].
  change (String a s +:+ t) with (String a (s +:+ t)). simpl. by rewrite IH.
Qed.

Lemma drop_app_exact s t : PyStr.drop (String.length s) (s +:+ t) = t.
Proof.
  induction s as [|a s IH]; [by destruct t|].
  change (String a s +:+ t) with (String a (s +:+ t)). simpl. by rewrite IH.
Qed.

(** ** Share links of the documented form *)

Section ViewLink.
Context {checks : UrllibParse.NetlocChecks}.
Import UrllibParse.

(** The host part ends at the first '/' when the host itself holds none of
    '/', '?', '#'. *)
Lemma splitnetloc_host host rest :
  Forall (λ c, PyStr.contains c host = false) ["/"%char; "?"%char; "#"%char] →
  splitnetloc ("//" +:+ host +:+ String "/" rest) 2 = (host, String "/" rest).
Proof.
  intros Hall. repeat (apply Forall_cons in Hall as [? Hall]).
  set (url := "//" +:+ host +:+ String "/" rest).
  set (L := (2 + String.length host)%nat).
  assert (Hfrom : ∀ c, PyStr.find_from c 2 url
                       = (λ i, 2 + i)%nat <$> PyStr.find c (host +:+ String "/" rest)).
  { done. }
  assert (Hslash : PyStr.find_from "/" 2 url = Some L).
  { rewrite Hfrom, find_app_absent by by apply contains_find.
    simpl. unfold L. f_equal. lia. }
  assert (Hother : ∀ c, PyStr.contains c host = false →
            match PyStr.find_from c 2 url with Some w => (L ≤ w)%nat | None => True end).
  { intros c Hc. rewrite Hfrom, find_app_absent by by apply contains_find.
    destruct (PyStr.find c (String "/" rest)) as [j|]; simpl; [unfold L; lia|done]. }
  assert (Hlen : (L ≤ String.length url)%nat).
  { unfold url, L. change ("//" +:+ host +:+ String "/" rest)
      with (String "/" (String "/" (host +:+ String "/" rest))).
    simpl. rewrite length_string_app. lia. }
  unfold splitnetloc. cbn [fold_left]. rewrite Hslash.
  pose proof (Hother "?"%char ltac:(done)) as Hq.
  pose proof (Hother "#"%char ltac:(done)) as Hh.
  destruct (PyStr.find_from "?" 2 url), (PyStr.find_from "#" 2 url);
    match goal with
    | |- context [PyStr.take (?d - 2)%nat] => assert (d = L) as -> by lia
    end.
  all: replace (L - 2)%nat with (String.length host) by (unfold L; lia).
  all: change (PyStr.drop 2 url) with (host +:+ String "/" rest).
  all: rewrite take_app_exact; f_equal.
  all: change (PyStr.drop L url)
         with (PyStr.drop (String.length host) (host +:+ String "/" rest)).
  all: apply drop_app_exact.
Qed.

(** A link of the documented form parses into the path /design/<id>/view,
    with no parameters, query or fragment. *)
Lemma urlparse_view_link id :
  plain_token id = true →
  urlparse (view_link id)
    = Return {| scheme := "https"; netloc := "www.canva.com";
                path := "/design/" +:+ id +:+ "/view";
                params := ""; query := ""; fragment := "" |}.
Proof.
  intros Hplain.
  set (tail := id +:+ "/view").
  assert (Hc : ∀ c, c ∈ reserved_chars → PyStr.contains c tail = PyStr.contains c "/view").
  { intros c Hin. apply contains_app_absent. by apply plain_token_absent. }
  assert (Hclean : ∀ c pre, c ∈ reserved_chars → PyStr.contains c pre = false →
                     PyStr.contains c "/view" = false →
                     PyStr.contains c (pre +:+ tail) = false).
  { intros c pre Hin Hpre Hview. by rewrite contains_app_absent, Hc. }
  unfold urlparse, urlsplit, view_link. fold tail.
  rewrite lstrip_app_keep by reflexivity.
  unfold unsafe_url_bytes_to_remove. cbn [fold_left].
  rewrite (remove_absent (ascii_of_nat 9))
    by (apply Hclean; [unfold reserved_chars; set_solver|reflexivity..]).
  rewrite (remove_absent (ascii_of_nat 13))
    by (apply Hclean; [unfold reserved_chars; set_solver|reflexivity..]).
  rewrite (remove_absent (ascii_of_nat 10))
    by (apply Hclean; [unfold reserved_chars; set_solver|reflexivity..]).
  change (split_scheme ("https://www.canva.com/design/" +:+ tail))
    with ("https", "//www.canva.com/design/" +:+ tail).
  cbv beta iota.
  change (PyStr.startswith "//" ("//www.canva.com/design/" +:+ tail)) with true.
  change ("//www.canva.com/design/" +:+ tail)
    with ("//" +:+ "www.canva.com" +:+ String "/" ("design/" +:+ tail)).
  rewrite splitnetloc_host by (repeat constructor).
  change (String "/" ("design/" +:+ tail)) with ("/design/" +:+ tail).
  unfold mbind, Outcome_bind. cbv beta iota.
  change (PyStr.contains "[" "www.canva.com") with false.
  change (PyStr.contains "]" "www.canva.com") with false.
  cbv beta iota. unfold PyStr.split1.
  assert (Hfind : ∀ c, c ∈ reserved_chars → PyStr.contains c "/view" = false →
                    PyStr.find c ("/design/" +:+ tail) = None).
  { intros c Hin Hview. apply contains_find, Hclean; [done| |done].
    revert Hin. unfold reserved_chars. rewrite !elem_of_cons, elem_of_nil.
    intros [->|[->|[->|[->|[->|[->|[->|[]]]]]]]]; try reflexivity; discriminate. }
  cbn [andb orb negb]. cbv beta iota.
  rewrite (Hfind "#"%char) by (unfold reserved_chars; set_solver || reflexivity).
  cbv beta iota.
  rewrite (Hfind "?"%char) by (unfold reserved_chars; set_solver || reflexivity).
  cbv beta iota.
  change (checknetloc "www.canva.com") with (@None string). cbv beta iota.
  change (bool_decide ("https" ∈ uses_params)) with true.
  rewrite (Hclean ";"%char) by (unfold reserved_chars; set_solver || reflexivity).
  reflexivity.
Qed.

Lemma marker_strategy_view_link id :
  plain_token id = true →
  marker_strategy ("/design/" +:+ id +:+ "/view") = Some id.
Proof.
  intros Hplain. unfold marker_strategy.
  change ("/design/" +:+ id +:+ "/view")
    with (String "/" ("design" +:+ String "/" (id +:+ String "/" "view"))).
  cbn [PyStr.split]. change (Ascii.eqb "/" "/") with true. cbv beta iota.
  rewrite split_app_absent by reflexivity.
  rewrite split_app_absent
    by (apply plain_token_absent; [done|unfold reserved_chars; set_solver]).
  reflexivity.
Qed.

(** X1. For a link of the form the docstring gives,
    https://www.canva.com/design/DESIGN_ID/view, with a DESIGN_ID free of
    '/', '?', '#', ';' and of tab, CR and LF, the extractor returns exactly
    DESIGN_ID. *)
Theorem extract_design_id_view_link id w :
  plain_token id = true →
  extract_design_id (view_link id) w
    = (Return (Some id), emit (EvLog INFO ("Extracted design ID: " +:+ id)) w).
Proof.
  intros Hplain.
  rewrite extract_design_id_run, urlparse_view_link by done.
  cbn [path]. by rewrite marker_strategy_view_link.
Qed.

End ViewLink.

Lemma extract_design_id_view_link_witness :
  plain_token "DAFxyz_12-ab" = true
  ∧ extract_design_id (checks := lenient_checks)
      "https://www.canva.com/design/DAFxyz_12-ab/view" empty_world
    = (Return (Some "DAFxyz_12-ab"),
       emit (EvLog INFO "Extracted design ID: DAFxyz_12-ab") empty_world).
Proof.
  split; [reflexivity|].
  exact (extract_design_id_view_link (checks := lenient_checks)
           "DAFxyz_12-ab" empty_world eq_refl).
Defined.

(** ** Identifiers taken from the path *)

Lemma marker_strategy_clean p id :
  marker_strategy p = Some id → PyStr.contains "/" id = false.
Proof.
  unfold marker_strategy. destruct (list_index "design" (PyStr.split "/" p)); [|done].
  intros Hlook. pose proof (split_segments_clean "/" p) as Hall.
  rewrite Forall_lookup in Hall. by eapply Hall.
Qed.

Lemma contains_startswith c s :
  PyStr.contains c s = false → PyStr.startswith (String c "") s = false.
Proof.
  destruct s as [|a s]; [done|]. unfold PyStr.contains. simpl.
  rewrite (Ascii.eqb_sym c a). by destruct (Ascii.eqb a c).
Qed.

(** X2. An identifier the extractor takes from the path holds no '/': it is
    one segment.  So the file the fetcher derives from it lies directly in
    the output directory, whatever the directory and format. *)
Theorem extract_design_id_path_segment {checks : UrllibParse.NetlocChecks}
    {unicode : PyStr.UnicodeCase} url w r id output_dir format :
  UrllibParse.urlparse url = Return r →
  marker_strategy (UrllibParse.path r) = Some id →
  (extract_design_id url w).1 = Return (Some id)
  ∧ PyStr.contains "/" id = false
  ∧ output_path id output_dir format
      = output_dir +:+ join_separator output_dir +:+ id +:+ "." +:+ PyStr.lower format.
Proof.
  intros Hparse Hm. split; [by rewrite extract_design_id_run, Hparse, Hm|].
  pose proof (marker_strategy_clean _ _ Hm) as Hclean. split; [done|].
  by apply output_path_relative, contains_startswith.
Qed.

Section PathSegmentExamples.
#[local] Existing Instance ascii_case.

Lemma extract_design_id_path_segment_witness :
  let r := {| UrllibParse.scheme := "https"; UrllibParse.netloc := "example.com";
              UrllibParse.path := "/design/ABC123/view"; UrllibParse.params := "";
              UrllibParse.query := "utm_content=%2Ftmp%2Fx"; UrllibParse.fragment := "" |} in
  (UrllibParse.urlparse (checks := lenient_checks)
     "https://example.com/design/ABC123/view?utm_content=%2Ftmp%2Fx" = Return r
   ∧ marker_strategy (UrllibParse.path r) = Some "ABC123")
  ∧ output_path "ABC123" "canva_designs" "PDF" = "canva_designs/ABC123.pdf".
Proof.
  intros r. split; [split; reflexivity|].
  exact (proj2 (proj2 (extract_design_id_path_segment (checks := lenient_checks)
    "https://example.com/design/ABC123/view?utm_content=%2Ftmp%2Fx" empty_world r
    "ABC123" "canva_designs" "PDF" eq_refl eq_refl))).
Defined.

End PathSegmentExamples.

(** ** More about the fetcher *)

Lemma upper_lower_char c : PyStr.upper_char (PyStr.lower_char c) = PyStr.upper_char c.
Proof. by destruct c as [[] [] [] [] [] [] [] []]. Qed.

Lemma isascii_lower_char c : PyStr.isascii (PyStr.lower_char c) = PyStr.isascii c.
Proof. by destruct c as [[] [] [] [] [] [] [] []]. Qed.

(** On ASCII text the upper case of the lower case is the upper case. *)
Lemma upper_lower {unicode : PyStr.UnicodeCase} s :
  PyStr.forallb PyStr.isascii s = true →
  PyStr.upper (PyStr.lower s) = PyStr.upper s.
Proof.
  intros Hascii. unfold PyStr.upper, PyStr.lower. rewrite Hascii.
  assert (PyStr.forallb PyStr.isascii (PyStr.map PyStr.lower_char s) = true) as ->.
  { rewrite <- Hascii. clear Hascii. induction s as [|c s IH]; simpl; [done|].
    by rewrite isascii_lower_char, IH. }
  clear Hascii. induction s as [|c s IH]; simpl; [done|].
  by rewrite upper_lower_char, IH.
Qed.

Section FetcherMore.
Context {unicode : PyStr.UnicodeCase}.
Variables design_id api_key output_dir format : string.
Variable w : World.

Let result := download_canva_design design_id api_key output_dir format w.
Let file := output_path design_id output_dir format.

(** What a run adds to the trace: at most one call of [requests.post], the
    export call; and what it raises is no RequestException. *)
Lemma download_events :
  ∃ events,
    trace result.2 = (trace w ++ events)%list
    ∧ (omap request_of events = []
       ∨ omap request_of events = [export_request design_id api_key format])
    ∧ (∀ e, result.1 = Raise e → is_RequestException e = false).
Proof.
  destruct (os_makedirs output_dir w).1 as [[]|e] eqn:Hmade.
  - destruct (download_made design_id api_key output_dir format w Hmade)
      as (later & Htrace & Hlater & _ & _ & _ & Hcase).
    eexists. split; [exact Htrace|]. split.
    + right. by rewrite omap_app, Hlater.
    + intros e He. fold result in Hcase. by rewrite He in Hcase.
  - destruct (download_makedirs_raises design_id api_key output_dir format w e Hmade)
      as (Hrun & Htrace & _).
    fold result in Hrun. rewrite Hrun. cbn [fst snd].
    eexists. split; [exact Htrace|]. split; [by left|].
    intros e' [= <-]. by eapply os_makedirs_not_request.
Qed.

(** X3. A run of the fetcher changes no file but its output file, removes no
    directory, and leaves the environment variables alone. *)
Theorem download_other_files_untouched p :
  p ≠ output_path design_id output_dir format →
  fs_files result.2 !! p = fs_files w !! p
  ∧ fs_dirs w ⊆ fs_dirs result.2
  ∧ environ result.2 = environ w.
Proof.
  intros Hp. destruct (os_makedirs output_dir w).1 as [[]|e] eqn:Hmade.
  - destruct (download_made design_id api_key output_dir format w Hmade)
      as (later & _ & _ & Henv & Hdirs & Hothers & _).
    fold result in Henv, Hdirs, Hothers. rewrite Hdirs.
    split; [by apply Hothers|]. split; [|done].
    by destruct (os_makedirs_grow output_dir w) as (d & Hd & ->).
  - destruct (download_makedirs_raises design_id api_key output_dir format w e Hmade)
      as (Hrun & _). fold result in Hrun. rewrite Hrun. cbn [snd].
    by destruct (os_makedirs_grow output_dir w) as (d & Hd & ->).
Qed.

(** X4. When the fetcher returns [None], the log tells why.  After the
    request comes the line "API request failed: " with the text of the
    exception handled: the RequestException [requests.post] raised, or the
    HTTPError of [raise_for_status] for a status from 400 to 599.  The line
    "Status code: " with the status in decimal follows exactly when the
    exception carries a response: always for the HTTPError, and for a
    RequestException such as TooManyRedirects. *)
Theorem download_failure_log :
  result.1 = Return None →
  ∃ e,
    is_RequestException e = true
    ∧ (post_result w (export_request design_id api_key format) = Raise e
       ∨ ∃ r, post_result w (export_request design_id api_key format) = Return r
              ∧ error_status r = true
              ∧ e = RequestException (http_error_msg r) (Some r))
    ∧ trace result.2
      = (trace w ++ request_events design_id api_key output_dir format
         ++ EvLog ERROR ("API request failed: " +:+ exn_str e)
            :: match exn_response e with
               | Some r => [EvLog ERROR ("Status code: " +:+ pretty (status_code r))]
               | None => []
               end)%list.
Proof.
  intros Hnone.
  destruct (download_made design_id api_key output_dir format w)
    as (later & Htrace & _ & _ & _ & _ & Hcase); [by eapply download_returns_made|].
  fold result in Htrace, Hcase. rewrite Hnone in Hcase.
  destruct Hcase as (_ & e & -> & Hreq & Hwhy).
  exists e. split; [done|]. split; [done|]. exact Htrace.
Qed.

(** X13. When [os.makedirs] raises, the exception leaves the fetcher at
    once: it is no RequestException, nothing but the call of [os.makedirs]
    is added to the trace (so no request is made and nothing is logged), no
    file is touched and no directory is lost. *)
Theorem download_makedirs_refused e :
  (os_makedirs output_dir w).1 = Raise e →
  result.1 = Raise e
  ∧ is_RequestException e = false
  ∧ trace result.2 = (trace w ++ [EvMakedirs output_dir])%list
  ∧ fs_files result.2 = fs_files w
  ∧ fs_dirs w ⊆ fs_dirs result.2.
Proof.
  intros Hmade.
  destruct (download_makedirs_raises design_id api_key output_dir format w e Hmade)
    as (Hrun & Htrace & Hfiles).
  fold result in Hrun. rewrite Hrun. cbn [fst snd].
  split; [done|]. split; [by eapply os_makedirs_not_request|].
  split; [done|]. split; [done|].
  by destruct (os_makedirs_grow output_dir w) as (d & Hd & ->).
Qed.

(** X14. An exception of [requests.post] that is no RequestException is not
    handled: it leaves the fetcher after the one call, with nothing logged
    about it and no file touched. *)
Theorem download_post_error_escapes e :
  (os_makedirs output_dir w).1 = Return () →
  post_result w (export_request design_id api_key format) = Raise e →
  is_RequestException e = false →
  result.1 = Raise e
  ∧ trace result.2
    = (trace w ++ request_events design_id api_key output_dir format)%list
  ∧ fs_files result.2 = fs_files w.
Proof.
  intros Hmade Hpost Hreq. subst result file.
  rewrite download_canva_design_run, Hmade. unfold fetch_table.
  rewrite post_result_makedirs, Hpost, Hreq.
  destruct (os_makedirs_grow output_dir w) as (d & _ & ->).
  unfold requests_post. cbn [fst snd].
  destruct (net_refuses _ _); simpl; by rewrite <- !app_assoc.
Qed.

(** X15. When [open] refuses the output file, after a response that
    [raise_for_status] accepted, its exception leaves the fetcher: the call
    of [open] is the last on the trace, and no file is created or
    changed. *)
Theorem download_open_refused r e :
  (os_makedirs output_dir w).1 = Return () →
  post_result w (export_request design_id api_key format) = Return r →
  error_status r = false →
  open_error (os_makedirs output_dir w).2 file = Some e →
  result.1 = Raise e
  ∧ trace result.2
    = (trace w ++ request_events design_id api_key output_dir format
       ++ [EvOpen file "wb"])%list
  ∧ fs_files result.2 = fs_files w.
Proof.
  intros Hmade Hpost Herr Hopen. subst result file.
  rewrite download_canva_design_run, Hmade. unfold fetch_table.
  rewrite post_result_makedirs, Hpost, Herr, Hopen.
  destruct (os_makedirs_grow output_dir w) as (d & _ & ->).
  unfold requests_post. cbn [fst snd].
  destruct (net_refuses _ _); simpl; by rewrite <- !app_assoc.
Qed.

End FetcherMore.

(** X5. For formats written in ASCII, the format counts up to letter case
    only: two formats with the same lower-case form give the same run,
    request and file included. *)
Theorem download_format_case {unicode : PyStr.UnicodeCase}
    design_id api_key output_dir format1 format2 w :
  PyStr.forallb PyStr.isascii format1 = true →
  PyStr.forallb PyStr.isascii format2 = true →
  PyStr.lower format1 = PyStr.lower format2 →
  download_canva_design design_id api_key output_dir format1 w
    = download_canva_design design_id api_key output_dir format2 w.
Proof.
  intros Hascii1 Hascii2 Hlow.
  assert (PyStr.upper format1 = PyStr.upper format2) as Hup.
  { by rewrite <- (upper_lower format1), Hlow, upper_lower. }
  unfold download_canva_design. by rewrite Hlow, Hup.
Qed.

(** X6. When the HTTP stack accepts the call with either key, the key
    reaches the headers of the call and nothing else: two runs that differ
    in the API key only, against the same answer, return the same value,
    leave the same files, directories and pending answers, and their traces
    agree once the headers are blanked. *)
Theorem download_credential_confined {unicode : PyStr.UnicodeCase}
    design_id key1 key2 output_dir format w :
  net_refuses w (export_request design_id key1 format) = None →
  net_refuses w (export_request design_id key2 format) = None →
  let run1 := download_canva_design design_id key1 output_dir format w in
  let run2 := download_canva_design design_id key2 output_dir format w in
  run1.1 = run2.1
  ∧ fs_files run1.2 = fs_files run2.2
  ∧ fs_dirs run1.2 = fs_dirs run2.2
  ∧ net_script run1.2 = net_script run2.2
  ∧ redact <$> trace run1.2 = redact <$> trace run2.2.
Proof.
  intros Hacc1 Hacc2 run1 run2. subst run1 run2.
  rewrite !download_canva_design_run.
  destruct (os_makedirs_grow output_dir w) as (d & _ & Hw1).
  destruct (os_makedirs output_dir w) as [[[]|e] w1]; cbn [fst snd] in *; [|done].
  subst w1. unfold fetch_table, requests_post, post_result, export_request in *.
  cbn [net_refuses net_script set_dirs emit fst snd req_url req_json req_headers].
  rewrite !Hacc1, !Hacc2.
  destruct (net_script w) as [|[r|msg response] rest].
  - simpl. by rewrite !fmap_app.
  - destruct (error_status r); [simpl; by rewrite !fmap_app|].
    destruct (open_error _ _); [simpl; by rewrite !fmap_app|].
    destruct (fs_short_write _ _ _); simpl; by rewrite !fmap_app.
  - destruct response; simpl; by rewrite !fmap_app.
Qed.

Section FetcherMoreExamples.
#[local] Existing Instance ascii_case.

Lemma download_other_files_untouched_witness :
  let w := set_files {["notes.txt" := [Byte.x68; Byte.x69]]}
             (answering [Responds ok_response]) in
  let result := download_canva_design "ABC123" "key" "canva_designs" "pdf" w in
  "notes.txt" ≠ output_path "ABC123" "canva_designs" "pdf"
  ∧ fs_files result.2 !! "notes.txt" = Some [Byte.x68; Byte.x69].
Proof.
  intros w result.
  assert (Hne : "notes.txt" ≠ output_path "ABC123" "canva_designs" "pdf") by done.
  split; [exact Hne|].
  exact (proj1 (download_other_files_untouched "ABC123" "key" "canva_designs" "pdf"
                  w "notes.txt" Hne)).
Defined.

(** X4 on a redirect loop: the request fails with the last response at hand,
    and its status is logged. *)
Lemma download_failure_log_witness :
  let found := {| status_code := 302; reason := "Found";
                  resp_url := "https://api.canva.com/v1/designs/ABC123/export";
                  content := [] |} in
  let w := answering [Fails "Exceeded 30 redirects." (Some found)] in
  let result := download_canva_design "ABC123" "key" "canva_designs" "pdf" w in
  result.1 = Return None
  ∧ drop 3 (trace result.2)
    = [EvLog ERROR "API request failed: Exceeded 30 redirects.";
       EvLog ERROR "Status code: 302"]
  ∧ ∃ e,
      is_RequestException e = true
      ∧ (post_result w (export_request "ABC123" "key" "pdf") = Raise e
         ∨ ∃ r, post_result w (export_request "ABC123" "key" "pdf") = Return r
                ∧ error_status r = true
                ∧ e = RequestException (http_error_msg r) (Some r))
      ∧ trace result.2
        = (trace w ++ request_events "ABC123" "key" "canva_designs" "pdf"
           ++ EvLog ERROR ("API request failed: " +:+ exn_str e)
              :: match exn_response e with
                 | Some r => [EvLog ERROR ("Status code: " +:+ pretty (status_code r))]
                 | None => []
                 end)%list.
Proof.
  intros found w result.
  assert (Hnone : result.1 = Return None) by (vm_compute; reflexivity).
  split; [exact Hnone|]. split; [vm_compute; reflexivity|].
  exact (download_failure_log "ABC123" "key" "canva_designs" "pdf" w Hnone).
Defined.

Lemma download_format_case_witness :
  (PyStr.forallb PyStr.isascii "PDF" = true
   ∧ PyStr.forallb PyStr.isascii "pdf" = true
   ∧ PyStr.lower "PDF" = PyStr.lower "pdf")
  ∧ download_canva_design "ABC123" "key" "canva_designs" "PDF"
      (answering [Responds ok_response])
    = download_canva_design "ABC123" "key" "canva_designs" "pdf"
      (answering [Responds ok_response]).
Proof.
  split; [split; [reflexivity|split; reflexivity]|].
  exact (download_format_case "ABC123" "key" "canva_designs" "PDF" "pdf"
           (answering [Responds ok_response]) eq_refl eq_refl eq_refl).
Defined.

Lemma download_credential_confined_witness :
  let w := answering [Responds ok_response] in
  let run1 := download_canva_design "ABC123" "key-one" "canva_designs" "pdf" w in
  let run2 := download_canva_design "ABC123" "key-two" "canva_designs" "pdf" w in
  (net_refuses w (export_request "ABC123" "key-one" "pdf") = None
   ∧ net_refuses w (export_request "ABC123" "key-two" "pdf") = None)
  ∧ run1.1 = run2.1
  ∧ fs_files run1.2 = fs_files run2.2
  ∧ redact <$> trace run1.2 = redact <$> trace run2.2.
Proof.
  intros w run1 run2. split; [split; reflexivity|].
  destruct (download_credential_confined "ABC123" "key-one" "key-two" "canva_designs"
              "pdf" w eq_refl eq_refl) as (Hres & Hfiles & _ & _ & Htrace).
  split; [exact Hres|]. split; [exact Hfiles|exact Htrace].
Defined.

(** X13 on the empty output directory. *)
Lemma download_makedirs_refused_witness :
  let w := answering [Responds ok_response] in
  let result := download_canva_design "ABC123" "key" "" "pdf" w in
  let e := OSError FileNotFoundError "[Errno 2] No such file or directory: ''" in
  (os_makedirs "" w).1 = Raise e
  ∧ result.1 = Raise e
  ∧ trace result.2 = [EvMakedirs ""]
  ∧ fs_files result.2 = ∅.
Proof.
  intros w result e.
  assert (Hmade : (os_makedirs "" w).1 = Raise e) by reflexivity.
  destruct (download_makedirs_refused "ABC123" "key" "" "pdf" w e Hmade)
    as (Hres & _ & Htrace & Hfiles & _).
  split; [exact Hmade|]. split; [exact Hres|]. split; [exact Htrace|exact Hfiles].
Defined.

(** X14 on a key outside Latin-1. *)
Lemma download_post_error_escapes_witness :
  let e := UnicodeEncodeError
             "'latin-1' codec can't encode characters in position 7-10: ordinal not in range(256)" in
  let w := refusing None (Some e) [Responds ok_response] in
  let result := download_canva_design "ABC123" "ключ" "canva_designs" "pdf" w in
  ((os_makedirs "canva_designs" w).1 = Return ()
   ∧ post_result w (export_request "ABC123" "ключ" "pdf") = Raise e
   ∧ is_RequestException e = false)
  ∧ result.1 = Raise e
  ∧ fs_files result.2 = ∅.
Proof.
  intros e w result.
  assert (Hmade : (os_makedirs "canva_designs" w).1 = Return ())
    by (vm_compute; reflexivity).
  destruct (download_post_error_escapes "ABC123" "ключ" "canva_designs" "pdf" w e
              Hmade eq_refl eq_refl) as (Hres & _ & Hfiles).
  split; [split; [exact Hmade|split; reflexivity]|].
  split; [exact Hres|exact Hfiles].
Defined.

(** X15 on an identifier with a '/' inside: there is no directory out/a. *)
Lemma download_open_refused_witness :
  let w := answering [Responds ok_response] in
  let result := download_canva_design "a/b" "key" "out" "pdf" w in
  let e := OSError FileNotFoundError
             "[Errno 2] No such file or directory: 'out/a/b.pdf'" in
  ((os_makedirs "out" w).1 = Return ()
   ∧ post_result w (export_request "a/b" "key" "pdf") = Return ok_response
   ∧ error_status ok_response = false
   ∧ open_error (os_makedirs "out" w).2 (output_path "a/b" "out" "pdf") = Some e)
  ∧ result.1 = Raise e
  ∧ fs_files result.2 = ∅.
Proof.
  intros w result e.
  assert (Hmade : (os_makedirs "out" w).1 = Return ()) by (vm_compute; reflexivity).
  assert (Hopen : open_error (os_makedirs "out" w).2 (output_path "a/b" "out" "pdf")
                  = Some e) by (vm_compute; reflexivity).
  destruct (download_open_refused "a/b" "key" "out" "pdf" w ok_response e
              Hmade eq_refl eq_refl Hopen) as (Hres & _ & Hfiles).
  split; [split; [exact Hmade|split; [reflexivity|split; [reflexivity|exact Hopen]]]|].
  split; [exact Hres|exact Hfiles].
Defined.

End FetcherMoreExamples.
(** ** The whole of [main] *)

(** What has been logged plays no part in [os.makedirs]. *)
Lemma os_makedirs_emit name e w :
  (os_makedirs name (emit e w)).1 = (os_makedirs name w).1
  ∧ fs_dirs (os_makedirs name (emit e w)).2 = fs_dirs (os_makedirs name w).2
  ∧ fs_files (os_makedirs name (emit e w)).2 = fs_files (os_makedirs name w).2
  ∧ fs_refuses (os_makedirs name (emit e w)).2 = fs_refuses (os_makedirs name w).2
  ∧ fs_strerror (os_makedirs name (emit e w)).2 = fs_strerror (os_makedirs name w).2.
Proof.
  unfold os_makedirs.
  rewrite (makedirs_go_emit _ _ (EvMakedirs name) (emit e w)), (makedirs_go_emit _ _ e w).
  by rewrite (makedirs_go_emit _ _ (EvMakedirs name) w).
Qed.

Section MainMore.
Context {checks : UrllibParse.NetlocChecks} {unicode : PyStr.UnicodeCase}.

Lemma main_with_flag args w k :
  args_api_key args = Some k → k ≠ "" →
  main args w = main_with_credential k args w.
Proof.
  intros Hk Hne%String.eqb_neq. unfold main, main_with_credential. run.
  rewrite Hk. simpl. rewrite Hne. simpl. by rewrite Hne.
Qed.

(** [main] by the credential it finds. *)
Lemma main_table args w :
  main args w =
    (if py_not (args_api_key args) then
       if py_not (environ w !! "CANVA_API_KEY") then
         (Return (),
          emit (EvLog ERROR "No API key provided. Use --api-key or set CANVA_API_KEY environment variable.") w)
       else main_with_credential (default "" (environ w !! "CANVA_API_KEY")) args w
     else main_with_credential (default "" (args_api_key args)) args w).
Proof.
  unfold main, main_with_credential. run. unfold os_environ_get.
  destruct (py_not (args_api_key args)) eqn:Hflag; simpl.
  - by destruct (py_not (environ w !! "CANVA_API_KEY")).
  - by rewrite Hflag.
Qed.

(** The extractor adds one log line to the world, and nothing else. *)
Lemma extract_design_id_logs url w :
  ∃ level msg, (extract_design_id url w).2 = emit (EvLog level msg) w.
Proof.
  rewrite extract_design_id_run.
  destruct (UrllibParse.urlparse url) as [r|e]; [|by eauto].
  destruct (marker_strategy _); [by eauto|].
  destruct (query_strategy _); by eauto.
Qed.

(** What [main] does with a credential, by the answer of the extractor and
    the outcome of the fetcher. *)
Lemma main_with_credential_run api_key args w :
  main_with_credential api_key args w =
    let found := extract_design_id (args_url args) w in
    match found.1 with
    | Return (Some (String c s)) =>
        let fetched :=
          download_canva_design (String c s) api_key (args_output_dir args)
                                (format_str (args_format args)) found.2 in
        match fetched.1 with
        | Return _ => (Return (), emit (EvLog INFO "Sync completed.") fetched.2)
        | Raise e => (Raise e, fetched.2)
        end
    | _ => (Return (), emit (EvLog ERROR "Failed to extract design ID. Exiting.") found.2)
    end.
Proof.
  unfold main_with_credential. run.
  rewrite extract_design_id_run.
  destruct (UrllibParse.urlparse (args_url args)) as [r|e]; simpl; [|done].
  destruct (marker_strategy (UrllibParse.path r)) as [[|c s]|]; simpl; [done| |].
  { by destruct (download_canva_design _ _ _ _ _) as [[?|?] ?]. }
  destruct (query_strategy (UrllibParse.query r)) as [[|c s]|]; simpl; [done| |done].
  by destruct (download_canva_design _ _ _ _ _) as [[?|?] ?].
Qed.

(** X7. Once a credential and a non-empty identifier are there, [main] runs
    the fetcher once on them.  When the fetcher returns, a path or [None],
    [main] ignores the value, logs "Sync completed." and returns: so also
    after a download that failed.  When the fetcher raises, the exception
    leaves [main] and nothing more is logged. *)
Theorem main_reports_completion args w k id w1 :
  args_api_key args = Some k → k ≠ "" →
  extract_design_id (args_url args) w = (Return (Some id), w1) →
  id ≠ "" →
  let fetched := download_canva_design id k (args_output_dir args)
                                       (format_str (args_format args)) w1 in
  main args w
    = match fetched.1 with
      | Return _ => (Return (), emit (EvLog INFO "Sync completed.") fetched.2)
      | Raise e => (Raise e, fetched.2)
      end.
Proof.
  intros Hk Hne Hfound Hid.
  rewrite (main_with_flag _ _ k), main_with_credential_run, Hfound by done. simpl.
  by destruct id.
Qed.

(** X8. With a credential but no usable identifier (the extractor returned
    [None] or the empty string), [main] adds the extractor's log line and one
    error line and returns: no directory is created and no request is sent. *)
Theorem main_stops_without_identifier args w k res :
  args_api_key args = Some k → k ≠ "" →
  (extract_design_id (args_url args) w).1 = Return res →
  py_not res = true →
  ∃ level msg,
    main args w
      = (Return (),
         emit (EvLog ERROR "Failed to extract design ID. Exiting.")
              (emit (EvLog level msg) w)).
Proof.
  intros Hk Hne Hres Hnot.
  rewrite (main_with_flag _ _ k), main_with_credential_run by done. simpl. rewrite Hres.
  destruct (extract_design_id_logs (args_url args) w) as (level & msg & ->).
  exists level, msg. destruct res as [[|c s]|]; done.
Qed.

(** The events of [main] once it holds a credential: at most one call of
    [requests.post], the export call for the identifier extracted. *)
Lemma main_with_credential_events k args w :
  ∃ events,
    trace (main_with_credential k args w).2 = (trace w ++ events)%list
    ∧ (omap request_of events = []
       ∨ ∃ id, id ≠ ""
               ∧ (extract_design_id (args_url args) w).1 = Return (Some id)
               ∧ omap request_of events
                 = [export_request id k (format_str (args_format args))])
    ∧ (∀ e, (main_with_credential k args w).1 = Raise e → is_RequestException e = false).
Proof.
  rewrite main_with_credential_run. cbv zeta.
  destruct (extract_design_id_logs (args_url args) w) as (level & msg & Hw1).
  destruct (extract_design_id (args_url args) w) as [found w1]. cbn [fst snd] in *.
  subst w1.
  assert (Hstop : ∃ events,
    trace (emit (EvLog ERROR "Failed to extract design ID. Exiting.")
             (emit (EvLog level msg) w)) = (trace w ++ events)%list
    ∧ omap request_of events = []).
  { eexists [_; _]. simpl. by rewrite <- app_assoc. }
  destruct found as [[[|c s]|]|e];
    try (destruct Hstop as (events & Htrace & Hreq); exists events;
         split; [exact Htrace|]; split; [by left|done]).
  destruct (download_events (String c s) k (args_output_dir args)
              (format_str (args_format args)) (emit (EvLog level msg) w))
    as (events & Htrace & Hreq & Hraise).
  destruct (download_canva_design _ _ _ _ _) as [[v|e] w2]; cbn [fst snd] in *.
  - exists (EvLog level msg :: events ++ [EvLog INFO "Sync completed."])%list.
    split; [simpl; rewrite Htrace; simpl; by rewrite <- !app_assoc|].
    split; [|done].
    change (omap request_of (EvLog level msg :: events ++ [EvLog INFO "Sync completed."])%list)
      with (omap request_of (events ++ [EvLog INFO "Sync completed."])%list).
    rewrite omap_app. change (omap request_of [EvLog INFO "Sync completed."]) with (@nil Request).
    rewrite app_nil_r.
    destruct Hreq as [->| ->]; [by left|]. right. by exists (String c s).
  - exists (EvLog level msg :: events).
    split; [rewrite Htrace; simpl; by rewrite <- !app_assoc|].
    split; [|by intros e' [= <-]; apply Hraise].
    change (omap request_of (EvLog level msg :: events))
      with (omap request_of events).
    destruct Hreq as [->| ->]; [by left|]. right. by exists (String c s).
Qed.

(** X9. From the parsed arguments on, [main] calls [requests.post] at most
    once, whatever happens: nothing is retried.  And no RequestException
    leaves it: what can leave it is an error of [os.makedirs], [open] or
    [write], or an error of [requests.post] that is no RequestException. *)
Theorem main_one_request_at_most args w :
  ∃ events,
    trace (main args w).2 = (trace w ++ events)%list
    ∧ (length (omap request_of events) ≤ 1)%nat
    ∧ (∀ e, (main args w).1 = Raise e → is_RequestException e = false).
Proof.
  assert (Hcred : ∀ k, ∃ events,
    trace (main_with_credential k args w).2 = (trace w ++ events)%list
    ∧ (length (omap request_of events) ≤ 1)%nat
    ∧ (∀ e, (main_with_credential k args w).1 = Raise e → is_RequestException e = false)).
  { intros k. destruct (main_with_credential_events k args w)
      as (events & Htrace & Hreq & Hraise).
    exists events. split; [done|]. split; [|done].
    destruct Hreq as [->|(id & _ & _ & ->)]; simpl; lia. }
  rewrite main_table.
  destruct (py_not (args_api_key args)); [|apply Hcred].
  destruct (py_not (environ w !! "CANVA_API_KEY")); [|apply Hcred].
  eexists [_]. split; [done|]. split; [simpl; lia|done].
Qed.

Lemma request_of_elem_of e req (l : list Event) :
  e ∈ l → request_of e = Some req → req ∈ omap request_of l.
Proof. intros Hin Hreq. apply list_elem_of_omap. eauto. Qed.

(** X11. Whatever call of [requests.post] [main] makes is the export call
    for the identifier the extractor returned, which is not empty, with the
    resolved credential (the flag before the environment variable) as bearer
    token, itself not empty, and with one of "PDF", "PNG", "JPG" as
    format. *)
Theorem main_request_shape args w events req :
  trace (main args w).2 = (trace w ++ events)%list →
  EvRequest req ∈ events →
  let key := default "" (if py_not (args_api_key args)
                         then environ w !! "CANVA_API_KEY"
                         else args_api_key args) in
  key ≠ ""
  ∧ PyStr.upper (format_str (args_format args)) ∈ ["PDF"; "PNG"; "JPG"]
  ∧ ∃ id, id ≠ ""
          ∧ (extract_design_id (args_url args) w).1 = Return (Some id)
          ∧ req = export_request id key (format_str (args_format args)).
Proof.
  intros Htrace Hin key.
  assert (Hfmt : PyStr.upper (format_str (args_format args)) ∈ ["PDF"; "PNG"; "JPG"]).
  { destruct (args_format args); cbv; set_solver. }
  apply (request_of_elem_of _ req) in Hin; [|done].
  assert (Hcred : ∀ k, main args w = main_with_credential k args w → k = key → k ≠ "" →
    key ≠ ""
    ∧ PyStr.upper (format_str (args_format args)) ∈ ["PDF"; "PNG"; "JPG"]
    ∧ ∃ id, id ≠ ""
            ∧ (extract_design_id (args_url args) w).1 = Return (Some id)
            ∧ req = export_request id key (format_str (args_format args))).
  { intros k Hmain <- Hk. split; [done|]. split; [done|].
    destruct (main_with_credential_events k args w) as (events' & Htrace' & Hreq & _).
    rewrite Hmain, Htrace' in Htrace. apply app_inv_head in Htrace as ->.
    destruct Hreq as [Hreq|(id & Hid & Hfound & Hreq)]; rewrite Hreq in Hin.
    - by apply elem_of_nil in Hin.
    - apply list_elem_of_singleton in Hin as ->. eauto. }
  pose proof (main_table args w) as Htable. subst key.
  destruct (py_not (args_api_key args)) eqn:Hflag.
  - destruct (py_not (environ w !! "CANVA_API_KEY")) eqn:Henv.
    + rewrite Htable in Htrace. simpl in Htrace.
      apply app_inv_head in Htrace as <-. simpl in Hin. by apply elem_of_nil in Hin.
    + apply (Hcred _ Htable eq_refl).
      destruct (environ w !! "CANVA_API_KEY") as [k|]; [|done].
      simpl in *. by apply String.eqb_neq.
  - apply (Hcred _ Htable eq_refl).
    destruct (args_api_key args) as [k|]; [|done].
    simpl in *. by apply String.eqb_neq.
Qed.

(** X10. The whole program on a link of the documented form, with a
    credential from the flag and a plain non-empty DESIGN_ID.  When
    [os.makedirs] accepts the output directory, [requests.post] returns a
    response [raise_for_status] accepts, and [open] and [write] accept the
    file, [main] returns normally having written the body of the response
    to <output_dir>/<DESIGN_ID>.<format>, and no other file; the directory
    is there and the last line logged is "Sync completed.". *)
Theorem main_syncs_view_link args w k id r :
  let dir := args_output_dir args in
  let target := dir +:+ (if PyStr.endswith "/" dir then "" else "/")
                +:+ id +:+ "." +:+ format_str (args_format args) in
  args_api_key args = Some k → k ≠ "" →
  args_url args = view_link id →
  plain_token id = true → id ≠ "" →
  (os_makedirs dir w).1 = Return () →
  post_result w (export_request id k (format_str (args_format args))) = Return r →
  error_status r = false →
  open_error (os_makedirs dir w).2 target = None →
  fs_short_write w target (content r) = None →
  (main args w).1 = Return ()
  ∧ fs_files (main args w).2 = <[target := content r]> (fs_files w)
  ∧ path_isdir (main args w).2 dir = true
  ∧ last (trace (main args w).2) = Some (EvLog INFO "Sync completed.").
Proof.
  intros dir target Hk Hne Hurl Hplain Hid Hmade Hpost Herr Hopen Hwrite.
  rewrite (main_with_flag _ _ k), main_with_credential_run by done. simpl.
  rewrite Hurl, extract_design_id_run, urlparse_view_link by done.
  cbn [UrllibParse.path]. rewrite marker_strategy_view_link by done. simpl.
  destruct id as [|c s]; [done|].
  set (w1 := emit _ w).
  assert (output_path (String c s) dir (format_str (args_format args)) = target)
    as Htarget.
  { rewrite output_path_relative.
    - unfold target, join_separator.
      apply os_makedirs_nonempty, String.eqb_neq in Hmade. rewrite Hmade.
      by destruct (args_format args).
    - apply contains_startswith, plain_token_absent; [done|].
      apply list_elem_of_here. }
  destruct (os_makedirs_emit dir (EvLog INFO ("Extracted design ID: " +:+ String c s)) w)
    as (Hmade1 & Hdirs1 & Hfiles1 & Hrefuses1 & Hstrerror1).
  fold w1 in Hmade1, Hdirs1, Hfiles1, Hrefuses1, Hstrerror1.
  rewrite Hmade in Hmade1.
  destruct (download_written (String c s) k dir (format_str (args_format args)) w1 r)
    as (Hres & Hfiles); [done|done|done| |by rewrite Htarget|].
  { rewrite Htarget. by rewrite (open_error_fs (os_makedirs dir w).2). }
  destruct (download_made (String c s) k dir (format_str (args_format args)) w1 Hmade1)
    as (later & _ & _ & _ & Hdirs & _).
  fold dir. rewrite Hres. cbn [fst snd fs_files fs_dirs trace emit]. unfold path_isdir.
  cbn [fst snd fs_files fs_dirs trace emit]. fold (path_isdir
    (download_canva_design (String c s) k dir (format_str (args_format args)) w1).2 dir).
  split; [done|]. split; [by rewrite Hfiles, Htarget|]. split; [|apply last_snoc].
  rewrite (path_isdir_dirs (os_makedirs dir w1).2) by done.
  by apply os_makedirs_isdir.
Qed.

End MainMore.

Section MainExamples.
#[local] Existing Instance ascii_case.

(** X7 on a download that fails in transport: [main] still reports the
    completion. *)
Lemma main_reports_completion_witness :
  let args := {| args_url := "https://www.canva.com/design/DAF42/view";
                 args_api_key := Some "key"; args_output_dir := "canva_designs";
                 args_format := png |} in
  let w := answering [Fails "Connection refused" None] in
  let w1 := emit (EvLog INFO "Extracted design ID: DAF42") w in
  (args_api_key args = Some "key" ∧ "key" ≠ ""
   ∧ extract_design_id (checks := lenient_checks) (args_url args) w
       = (Return (Some "DAF42"), w1)
   ∧ "DAF42" ≠ "")
  ∧ (download_canva_design "DAF42" "key" "canva_designs" "png" w1).1 = Return None
  ∧ (main (checks := lenient_checks) args w).1 = Return ()
  ∧ last (trace (main (checks := lenient_checks) args w).2)
    = Some (EvLog INFO "Sync completed.").
Proof.
  intros args w w1.
  assert (Hkey : "key" ≠ "") by done.
  assert (Hid : "DAF42" ≠ "") by done.
  assert (Hfound : extract_design_id (checks := lenient_checks) (args_url args) w
                   = (Return (Some "DAF42"), w1)) by (vm_compute; reflexivity).
  split; [split; [reflexivity|split; [exact Hkey|split; [exact Hfound|exact Hid]]]|].
  split; [vm_compute; reflexivity|].
  rewrite (main_reports_completion (checks := lenient_checks)
             args w "key" "DAF42" w1 eq_refl Hkey Hfound Hid).
  split; vm_compute; reflexivity.
Defined.

Lemma main_stops_without_identifier_witness :
  let args := {| args_url := "https://www.canva.com/templates/";
                 args_api_key := Some "key"; args_output_dir := "canva_designs";
                 args_format := pdf |} in
  let w := answering [Responds ok_response] in
  (args_api_key args = Some "key" ∧ "key" ≠ ""
   ∧ (extract_design_id (checks := lenient_checks) (args_url args) w).1 = Return None
   ∧ py_not None = true)
  ∧ ∃ level msg,
      main (checks := lenient_checks) args w
        = (Return (),
           emit (EvLog ERROR "Failed to extract design ID. Exiting.")
                (emit (EvLog level msg) w)).
Proof.
  intros args w.
  assert (Hkey : "key" ≠ "") by done.
  assert (Hnone : (extract_design_id (checks := lenient_checks) (args_url args) w).1
                  = Return None) by (vm_compute; reflexivity).
  split; [split; [reflexivity|split; [exact Hkey|split; [exact Hnone|reflexivity]]]|].
  exact (main_stops_without_identifier (checks := lenient_checks)
           args w "key" None eq_refl Hkey Hnone eq_refl).
Defined.

(** X9 on a key outside Latin-1, which the HTTP stack refuses with
    UnicodeEncodeError: the error leaves [main], after the one call. *)
Lemma main_one_request_at_most_witness :
  let args := {| args_url := "https://www.canva.com/design/DAF42/view";
                 args_api_key := Some "ключ"; args_output_dir := "canva_designs";
                 args_format := pdf |} in
  let unencodable :=
    UnicodeEncodeError
      "'latin-1' codec can't encode characters in position 7-10: ordinal not in range(256)" in
  let w := refusing None (Some unencodable) [Responds ok_response] in
  (main (checks := lenient_checks) args w).1 = Raise unencodable
  ∧ ∃ events,
      trace (main (checks := lenient_checks) args w).2 = (trace w ++ events)%list
      ∧ (length (omap request_of events) ≤ 1)%nat
      ∧ (∀ e, (main (checks := lenient_checks) args w).1 = Raise e →
              is_RequestException e = false).
Proof.
  intros args unencodable w. split; [vm_compute; reflexivity|].
  exact (main_one_request_at_most (checks := lenient_checks) args w).
Defined.

Lemma main_syncs_view_link_witness :
  let args := {| args_url := "https://www.canva.com/design/DAF42/view";
                 args_api_key := Some "key"; args_output_dir := "canva_designs";
                 args_format := png |} in
  let w := answering [Responds ok_response] in
  (args_api_key args = Some "key" ∧ "key" ≠ ""
   ∧ args_url args = view_link "DAF42"
   ∧ plain_token "DAF42" = true ∧ "DAF42" ≠ ""
   ∧ (os_makedirs "canva_designs" w).1 = Return ()
   ∧ post_result w (export_request "DAF42" "key" "png") = Return ok_response
   ∧ error_status ok_response = false
   ∧ open_error (os_makedirs "canva_designs" w).2 "canva_designs/DAF42.png" = None
   ∧ fs_short_write w "canva_designs/DAF42.png" (content ok_response) = None)
  ∧ (main (checks := lenient_checks) args w).1 = Return ()
  ∧ fs_files (main (checks := lenient_checks) args w).2
      = <["canva_designs/DAF42.png" := [Byte.x25; Byte.x50]]> ∅.
Proof.
  intros args w.
  assert (Hkey : "key" ≠ "") by done.
  assert (Hid : "DAF42" ≠ "") by done.
  assert (Hmade : (os_makedirs "canva_designs" w).1 = Return ())
    by (vm_compute; reflexivity).
  assert (Hopen : open_error (os_makedirs "canva_designs" w).2
                    "canva_designs/DAF42.png" = None)
    by (vm_compute; reflexivity).
  split.
  { split; [reflexivity|]. split; [exact Hkey|]. split; [reflexivity|].
    split; [reflexivity|]. split; [exact Hid|]. split; [exact Hmade|].
    split; [reflexivity|]. split; [reflexivity|]. split; [exact Hopen|reflexivity]. }
  destruct (main_syncs_view_link (checks := lenient_checks)
              args w "key" "DAF42" ok_response eq_refl Hkey eq_refl eq_refl Hid
              Hmade eq_refl eq_refl Hopen eq_refl) as (Hret & Hfiles & _).
  split; [exact Hret|exact Hfiles].
Defined.

Lemma main_request_shape_witness :
  let args := {| args_url := "https://www.canva.com/design/DAF42/view";
                 args_api_key := Some "flag-key"; args_output_dir := "canva_designs";
                 args_format := jpg |} in
  let w := {| environ := {["CANVA_API_KEY" := "env-key"]}; fs_dirs := ∅;
              fs_files := ∅; fs_refuses := λ _, false; fs_strerror := posix_strerror;
              fs_short_write := λ _ _, None; net_refuses := λ _, None;
              net_script := [Responds ok_response]; trace := [] |} in
  let events := trace (main (checks := lenient_checks) args w).2 in
  let req := {| req_method := "POST";
                req_url := "https://api.canva.com/v1/designs/DAF42/export";
                req_json := [("format", "JPG"); ("pages", "all")];
                req_headers := [("Authorization", "Bearer flag-key");
                                ("Content-Type", "application/json")] |} in
  (trace (main (checks := lenient_checks) args w).2 = (trace w ++ events)%list
   ∧ EvRequest req ∈ events)
  ∧ ∃ id, id ≠ ""
          ∧ (extract_design_id (checks := lenient_checks) (args_url args) w).1
              = Return (Some id)
          ∧ req = export_request id "flag-key" "jpg".
Proof.
  intros args w events req.
  assert (Hin : EvRequest req ∈ events).
  { apply list_elem_of_lookup. exists 3%nat. vm_compute. reflexivity. }
  split; [split; [reflexivity|exact Hin]|].
  exact (proj2 (proj2 (main_request_shape (checks := lenient_checks)
                         args w events req eq_refl Hin))).
Defined.

(** A whole run of [main]: the flag wins over the environment, the
    identifier comes from the query string, the body lands in the file. *)
Example main_run :
  let args := {| args_url := "https://www.canva.com/share?utm_content=DAF%2D42";
                 args_api_key := Some "flag-key";
                 args_output_dir := "canva_designs";
                 args_format := jpg |} in
  let w := {| environ := {["CANVA_API_KEY" := "env-key"]}; fs_dirs := ∅;
              fs_files := ∅; fs_refuses := λ _, false; fs_strerror := posix_strerror;
              fs_short_write := λ _ _, None; net_refuses := λ _, None;
              net_script := [Responds ok_response]; trace := [] |} in
  let result := main (checks := lenient_checks) args w in
  result.1 = Return ()
  ∧ fs_files result.2 !! "canva_designs/DAF-42.jpg" = Some [Byte.x25; Byte.x50]
  ∧ omap request_of (trace result.2) =
      [ {| req_method := "POST";
           req_url := "https://api.canva.com/v1/designs/DAF-42/export";
           req_json := [("format", "JPG"); ("pages", "all")];
           req_headers := [("Authorization", "Bearer flag-key");
                           ("Content-Type", "application/json")] |} ]
  ∧ last (trace result.2) = Some (EvLog INFO "Sync completed.").
Proof. vm_compute. repeat split. Qed.

(** A run of [main] with the empty output directory: the FileNotFoundError
    of [os.makedirs] leaves [main], and no completion is logged. *)
Example main_empty_output_dir_run :
  let args := {| args_url := "https://www.canva.com/design/DAF42/view";
                 args_api_key := Some "key"; args_output_dir := "";
                 args_format := pdf |} in
  let result := main (checks := lenient_checks) args (answering [Responds ok_response]) in
  result.1 = Raise (OSError FileNotFoundError "[Errno 2] No such file or directory: ''")
  ∧ trace result.2 = [EvLog INFO "Extracted design ID: DAF42"; EvMakedirs ""].
Proof. vm_compute. repeat split. Qed.

End MainExamples.
(** ** Identifiers taken from the query string *)

Lemma split_absent sep s : PyStr.contains sep s = false → PyStr.split sep s = [s].
Proof.
  unfold PyStr.contains. induction s as [|a s IH]; simpl; [done|].
  destruct (Ascii.eqb a sep); [done|].
  destruct (PyStr.find sep s); [done|]. intros _. by rewrite IH.
Qed.

Lemma replace_absent c d s : PyStr.contains c s = false → PyStr.replace c d s = s.
Proof.
  unfold PyStr.contains. induction s as [|a s IH]; simpl; [done|].
  destruct (Ascii.eqb a c); [done|].
  destruct (PyStr.find c s); [done|]. intros _. by rewrite IH.
Qed.

Lemma query_strategy_plain_value v :
  v ≠ "" →
  Forall (λ c, PyStr.contains c v = false) ["&"%char; "+"%char; "%"%char] →
  query_strategy ("utm_content=" +:+ v) = Some v.
Proof.
  intros Hv Hall.
  apply Forall_cons in Hall as [Hamp Hall]. apply Forall_cons in Hall as [Hplus Hall].
  apply Forall_cons in Hall as [Hpct _].
  unfold query_strategy, UrllibParse.parse_qs, UrllibParse.parse_qsl.
  rewrite split_absent by by rewrite contains_app_absent.
  assert (UrllibParse.parse_field ("utm_content=" +:+ v) = Some ("utm_content", v)) as Hfield.
  { unfold UrllibParse.parse_field, PyStr.split1.
    rewrite (find_app_present "=" _ _ 11) by reflexivity.
    rewrite take_app_le by (simpl; lia).
    rewrite (drop_app_le 12) by (simpl; lia).
    change (PyStr.drop 12 "utm_content=" +:+ v) with v.
    destruct v as [|c s]; [done|]. cbn [String.length Nat.ltb Nat.leb].
    rewrite (replace_absent "+" " " (String c s)) by done.
    unfold UrllibParse.unquote at 2. by rewrite Hpct. }
  cbn [omap list_omap]. rewrite Hfield. cbn [fold_left].
  rewrite lookup_empty. by rewrite lookup_insert_eq.
Qed.

(** X12. When the path gives no identifier and the query string is
    utm_content=<value>, with a non-empty value free of '&', '+' and '%', the
    extractor returns the value as it stands. *)
Theorem extract_design_id_utm_value {checks : UrllibParse.NetlocChecks} url w r v :
  UrllibParse.urlparse url = Return r →
  marker_strategy (UrllibParse.path r) = None →
  UrllibParse.query r = "utm_content=" +:+ v →
  v ≠ "" →
  Forall (λ c, PyStr.contains c v = false) ["&"%char; "+"%char; "%"%char] →
  extract_design_id url w
    = (Return (Some v), emit (EvLog INFO ("Extracted design ID from query: " +:+ v)) w).
Proof.
  intros Hparse Hm Hq Hv Hall.
  by rewrite extract_design_id_run, Hparse, Hm, Hq, query_strategy_plain_value.
Qed.

Lemma extract_design_id_utm_value_witness :
  let url := "https://www.canva.com/share?utm_content=DAF42" in
  let r := {| UrllibParse.scheme := "https"; UrllibParse.netloc := "www.canva.com";
              UrllibParse.path := "/share"; UrllibParse.params := "";
              UrllibParse.query := "utm_content=DAF42"; UrllibParse.fragment := "" |} in
  (UrllibParse.urlparse (checks := lenient_checks) url = Return r
   ∧ marker_strategy (UrllibParse.path r) = None
   ∧ "DAF42" ≠ ""
   ∧ Forall (λ c, PyStr.contains c "DAF42" = false) ["&"%char; "+"%char; "%"%char])
  ∧ extract_design_id (checks := lenient_checks) url empty_world
      = (Return (Some "DAF42"),
         emit (EvLog INFO "Extracted design ID from query: DAF42") empty_world).
Proof.
  intros url r.
  assert (Hv : "DAF42" ≠ "") by done.
  assert (Hall : Forall (λ c, PyStr.contains c "DAF42" = false)
                        ["&"%char; "+"%char; "%"%char]) by (repeat constructor).
  split; [split; [reflexivity|split; [reflexivity|split; [exact Hv|exact Hall]]]|].
  exact (extract_design_id_utm_value (checks := lenient_checks)
           url empty_world r "DAF42" eq_refl eq_refl eq_refl Hv Hall).
Defined.
